(** * Movie-Watchlist-Flask: a shallow embedding of [movie_library]

    The development follows the two source modules:
    - [tmdb]   : [src/movie_library/tmdb.py], the external catalog client
                 and the aggregator [get_full_movie_info];
    - [routes] : [src/movie_library/routes.py], the Flask views, run over an
                 explicit state (MongoDB collections, the session, the log
                 of network calls).

    Python values are duck-typed, so record fields hold [value]s exactly as
    the dataclasses do at run time; exceptions are explicit outcomes. *)

From Stdlib Require Import ZArith QArith Ascii String.
From stdpp Require Import base option list strings gmap fin_maps pretty.

Open Scope Z_scope.
Open Scope string_scope.
Open Scope list_scope.

#[local] Set Warnings "-register-all".

(** ** Python values *)

(** What [json()] produces and what dataclass fields hold.  A JSON object
    is an association list (first binding of a key wins on lookup). *)
Inductive value : Type :=
| VNone
| VBool (b : bool)
| VInt (n : Z)
| VFloat (q : Q)
| VStr (s : string)
| VList (l : list value)
| VDict (d : list (string * value)).

(** Truth value of an object in a condition ([if x:], [not x], [x and y]). *)
Definition truthy (v : value) : bool :=
  match v with
  | VNone => false
  | VBool b => b
  | VInt n => negb (n =? 0)%Z
  | VFloat q => negb (Qnum q =? 0)%Z
  | VStr s => negb (String.eqb s "")
  | VList l => match l with [] => false | _ => true end
  | VDict d => match d with [] => false | _ => true end
  end.

(** [v == "s"] for a string literal on the right: only a [str] with the
    same characters compares equal. *)
Definition eq_str (v : value) (s : string) : bool :=
  match v with
  | VStr t => String.eqb t s
  | _ => false
  end.

(** ** Exceptions and outcomes *)

(** The subclasses of [requests.RequestException] the client can meet. *)
Inductive request_error : Type :=
| ConnectionError
| Timeout
| HTTPError
| JSONDecodeError.

Inductive exn : Type :=
| RequestException (e : request_error)
| ValueError
| TypeError
| AttributeError
| KeyError
| IndexError
| BuildError
| DuplicateKeyError.

Definition is_RequestException (e : exn) : bool :=
  match e with RequestException _ => true | _ => false end.

(** A call returns, raises, or never comes back ([Hang]: a blocking read
    with no timeout on a peer that never answers). *)
Inductive outcome (A : Type) : Type :=
| Ret (a : A)
| Raise (e : exn)
| Hang.
Arguments Ret {A} a.
Arguments Raise {A} e.
Arguments Hang {A}.

(** ** Strings as Python sees them *)

Module pystr.

(** Characters are code points below 256. *)
Definition code (c : ascii) : N := N_of_ascii c.

(** [str.isspace] on that range. *)
Definition isspace (c : ascii) : bool :=
  let n := code c in
  ((9 <=? n) && (n <=? 13) || (28 <=? n) && (n <=? 32)
   || (n =? 133) || (n =? 160))%N.

Definition isdigit (c : ascii) : bool :=
  let n := code c in ((48 <=? n) && (n <=? 57))%N.

Definition digit_val (c : ascii) : Z := Z.of_N (code c) - 48.

Definition lower_char (c : ascii) : ascii :=
  let n := code c in
  if ((65 <=? n) && (n <=? 90)
      || (192 <=? n) && (n <=? 222) && negb (n =? 215))%N
  then ascii_of_N (n + 32) else c.

(** [s.lower()] *)
Fixpoint lower (s : string) : string :=
  match s with
  | EmptyString => EmptyString
  | String c r => String (lower_char c) (lower r)
  end.

(** [s.split(sep)] for a one-character separator. *)
Fixpoint split (sep : ascii) (s : string) : list string :=
  match s with
  | EmptyString => [EmptyString]
  | String c r =>
      if Ascii.eqb c sep then EmptyString :: split sep r
      else match split sep r with
           | [] => [String c EmptyString]
           | h :: t => String c h :: t
           end
  end.

Fixpoint lstrip (s : string) : string :=
  match s with
  | String c r => if isspace c then lstrip r else s
  | EmptyString => EmptyString
  end.

Fixpoint rstrip (s : string) : string :=
  match s with
  | EmptyString => EmptyString
  | String c r =>
      match rstrip r with
      | EmptyString => if isspace c then EmptyString else String c EmptyString
      | r' => String c r'
      end
  end.

(** [s.strip()] *)
Definition strip (s : string) : string := rstrip (lstrip s).

(** Digits of a decimal literal, most significant first; a single
    underscore may sit between two digits.  [prev] tells whether the
    previous character was a digit. *)
Fixpoint digits (prev : bool) (acc : Z) (cnt : nat) (s : string)
  : option (Z * nat) :=
  match s with
  | EmptyString => if prev then Some (acc, cnt) else None
  | String c r =>
      if isdigit c then digits true (10 * acc + digit_val c) (S cnt) r
      else if Ascii.eqb c "_" then
             if prev then digits false acc cnt r else None
           else None
  end.

(** CPython's default limit on the number of digits [int] converts. *)
Definition int_max_str_digits : nat := 4300.

Definition unsigned (s : string) : option Z :=
  match digits false 0 0%nat s with
  | Some (n, cnt) => if (cnt <=? int_max_str_digits)%nat then Some n else None
  | None => None
  end.

(** [int(s)] in base ten: [None] stands for [ValueError]. *)
Definition to_int (s : string) : option Z :=
  match strip s with
  | String "+" r => unsigned r
  | String "-" r => Z.opp <$> unsigned r
  | t => unsigned t
  end.

End pystr.

(** [int(v)]: a string is parsed, a number is truncated, [None] and
    containers are a [TypeError]. *)
Definition py_int (v : value) : outcome Z :=
  match v with
  | VStr s => match pystr.to_int s with Some n => Ret n | None => Raise ValueError end
  | VInt n => Ret n
  | VBool b => Ret (if b then 1 else 0)
  | VFloat q => Ret (Z.quot (Qnum q) (Zpos (Qden q)))
  | _ => Raise TypeError
  end.

(** [l[0]] on a list *)
Definition index0 {A} (l : list A) : outcome A :=
  match l with
  | [] => Raise IndexError
  | x :: _ => Ret x
  end.

(** ** Operations on values used by the client and the views *)

Fixpoint assoc (k : string) (d : list (string * value)) : option value :=
  match d with
  | [] => None
  | (k', v) :: r => if String.eqb k k' then Some v else assoc k r
  end.

(** [v.get(k, default)]: only a [dict] has the method. *)
Definition dict_get (v : value) (k : string) (default : value) : outcome value :=
  match v with
  | VDict d => Ret (from_option (fun x => x) default (assoc k d))
  | _ => Raise AttributeError
  end.

(** [v[k]] for a string key. *)
Definition getitem (v : value) (k : string) : outcome value :=
  match v with
  | VDict d => match assoc k d with Some x => Ret x | None => Raise KeyError end
  | _ => Raise TypeError
  end.

Fixpoint chars (s : string) : list value :=
  match s with
  | EmptyString => []
  | String c r => VStr (String c EmptyString) :: chars r
  end.

(** The items a [for] loop visits. *)
Definition iterate (v : value) : outcome (list value) :=
  match v with
  | VList l => Ret l
  | VStr s => Ret (chars s)
  | VDict d => Ret (map (fun kv => VStr (fst kv)) d)
  | _ => Raise TypeError
  end.

(** [v[:n]] *)
Definition slice_to (n : nat) (v : value) : outcome value :=
  match v with
  | VList l => Ret (VList (take n l))
  | VStr s => Ret (VStr (String.substring 0 n s))
  | _ => Raise TypeError
  end.

(** ** The monads: pure outcomes, and outcomes over the program state *)

Definition obind {A B} (o : outcome A) (k : A -> outcome B) : outcome B :=
  match o with
  | Ret a => k a
  | Raise e => Raise e
  | Hang => Hang
  end.

Notation "x <~ e ;; k" := (obind e (fun x => k))
  (at level 100, e at next level, right associativity).

(** [[f(x) for x in l]] *)
Fixpoint omap {A B} (f : A -> outcome B) (l : list A) : outcome (list B) :=
  match l with
  | [] => Ret []
  | x :: r => y <~ f x ;; ys <~ omap f r ;; Ret (y :: ys)
  end.

(** One HTTP GET as [requests.get(url, params=..., timeout=...)] sees it. *)
Record request : Type := Request {
  req_url : string;
  req_params : list (string * value);
  req_timeout : option Z
}.

Inductive reply : Type :=
| Reply (status_code : Z) (body : option value) (* body [None]: not JSON *)
| Unreachable                                   (* no connection *)
| Silent.                                       (* the peer never answers *)

(** A MongoDB document, a Flask session: dictionaries with string keys. *)
Abbreviation doc := (gmap string value).

Record state : Type := State {
  net_log : list request;     (* every GET issued so far, oldest first *)
  db_user : list doc;         (* collection [user] *)
  db_movie : list doc;        (* collection [movie] *)
  session : gmap string value;
  entropy : nat               (* random draws and clock readings so far *)
}.

(** What the process does not own. *)
Record world : Type := World {
  environ_TMDB_API_KEY : option string;
  network : list request -> request -> reply;
  repr : value -> string;              (* [str()] of floats and containers *)
  uuid4_hex : nat -> string;
  pbkdf2_sha256_hash : nat -> string -> string;
  pbkdf2_sha256_verify : string -> value -> outcome bool;
  datetime_today : nat -> value
}.

Definition M (A : Type) : Type := state -> outcome A * state.

Definition ret {A} (a : A) : M A := fun st => (Ret a, st).
Definition raise {A} (e : exn) : M A := fun st => (Raise e, st).
Definition lift {A} (o : outcome A) : M A := fun st => (o, st).

Definition bind {A B} (m : M A) (k : A -> M B) : M B :=
  fun st =>
    match m st with
    | (Ret a, st') => k a st'
    | (Raise e, st') => (Raise e, st')
    | (Hang, st') => (Hang, st')
    end.

Notation "x <- e ;; k" := (bind e (fun x => k))
  (at level 100, e at next level, right associativity).
Notation "e ;;; k" := (bind e (fun _ => k))
  (at level 100, right associativity).

(** [try: body  except handles as e: handler] *)
Definition try_except {A} (body : M A) (handles : exn -> bool) (handler : exn -> M A)
  : M A :=
  fun st =>
    match body st with
    | (Raise e, st') => if handles e then handler e st' else (Raise e, st')
    | r => r
    end.

(** [for x in l: f(x)] collecting the appended results. *)
Fixpoint for_each {A B} (f : A -> M B) (l : list A) : M (list B) :=
  match l with
  | [] => ret []
  | x :: r => y <- f x ;; ys <- for_each f r ;; ret (y :: ys)
  end.

(** [str(v)] as an f-string field. *)
Definition py_str (w : world) (v : value) : string :=
  match v with
  | VStr s => s
  | VNone => "None"
  | VBool b => if b then "True" else "False"
  | VInt n => pretty n
  | _ => repr w v
  end.

(** [list.sort(key=key)]: stable, compares keys with [<] only.  An element
    is put in front of the first one whose key is not smaller. *)
Section list_sort.
Context {A K : Type} (key : A -> K) (lt : K -> K -> bool).

Fixpoint insert_sorted (x : A) (l : list A) : list A :=
  match l with
  | [] => [x]
  | y :: r => if lt (key y) (key x) then y :: insert_sorted x r else x :: l
  end.

Definition list_sort (l : list A) : list A := foldr insert_sorted [] l.
End list_sort.

(** [<] on booleans ([False < True]) and on pairs of them. *)
Definition bool_lt (a b : bool) : bool := negb a && b.
Definition pair_lt (a b : bool * bool) : bool :=
  bool_lt (fst a) (fst b) || (Bool.eqb (fst a) (fst b) && bool_lt (snd a) (snd b)).

(** * [tmdb.py]: the external catalog client *)

Module tmdb.

Definition TMDB_BASE_URL : string := "https://api.themoviedb.org/3".
Definition TMDB_IMAGE_BASE_URL : string := "https://image.tmdb.org/t/p".

(** [os.environ.get("TMDB_API_KEY")], refused when unset or empty. *)
Definition get_api_key (w : world) : M string :=
  match environ_TMDB_API_KEY w with
  | Some k => if String.eqb k "" then raise ValueError else ret k
  | None => raise ValueError
  end.

Module TMDBMovie.
Record t : Type := Make {
  id : value;
  title : value;
  overview : value;
  poster_path : value;
  backdrop_path : value;
  release_date : value;
  vote_average : value;
  vote_count : value;
  genre_ids : value;
  genres : value;
  runtime : value;
  tagline : value
}.

Definition poster_url (w : world) (self : t) : option string :=
  if truthy (poster_path self)
  then Some (TMDB_IMAGE_BASE_URL +:+ "/w500" +:+ py_str w (poster_path self))
  else None.

Definition backdrop_url (w : world) (self : t) : option string :=
  if truthy (backdrop_path self)
  then Some (TMDB_IMAGE_BASE_URL +:+ "/original" +:+ py_str w (backdrop_path self))
  else None.

(** [release_date.split("-")]: a method of [str] only. *)
Definition split_dash (v : value) : outcome (list string) :=
  match v with
  | VStr s => Ret (pystr.split "-" s)
  | _ => Raise AttributeError
  end.

(** The body of the [try] in [year]. *)
Definition year_try (self : t) : outcome Z :=
  parts <~ split_dash (release_date self) ;;
  head <~ index0 parts ;;
  py_int (VStr head).

Definition year (self : t) : outcome Z :=
  if truthy (release_date self) then
    match year_try self with
    | Raise ValueError | Raise IndexError => Ret 0
    | r => r
    end
  else Ret 0.
End TMDBMovie.

Module TMDBCastMember.
Record t : Type := Make {
  id : value;
  name : value;
  character : value;
  profile_path : value
}.

Definition profile_url (w : world) (self : t) : option string :=
  if truthy (profile_path self)
  then Some (TMDB_IMAGE_BASE_URL +:+ "/w185" +:+ py_str w (profile_path self))
  else None.
End TMDBCastMember.

Module TMDBVideo.
Record t : Type := Make {
  id : value;
  key : value;
  name : value;
  site : value;
  type : value
}.

(** [self.site.lower() == "youtube"] *)
Definition site_is_youtube (self : t) : outcome bool :=
  match site self with
  | VStr s => Ret (String.eqb (pystr.lower s) "youtube")
  | _ => Raise AttributeError
  end.

Definition youtube_url (w : world) (self : t) : outcome (option string) :=
  yt <~ site_is_youtube self ;;
  if yt then Ret (Some ("https://www.youtube.com/embed/" +:+ py_str w (key self)))
  else Ret None.

(** The sort key of [get_movie_videos]:
    [(v.type != "Trailer", v.type != "Teaser")]. *)
Definition sort_key (v : t) : bool * bool :=
  (negb (eq_str (type v) "Trailer"), negb (eq_str (type v) "Teaser")).
End TMDBVideo.

(** [requests.get(url, params=params, timeout=timeout)]: the call is
    logged, then the network decides. *)
Record response : Type := Response {
  status_code : Z;
  content : option value
}.

Definition requests_get (w : world) (url : string)
    (params : list (string * value)) (timeout : option Z) : M response :=
  fun st =>
    let r := Request url params timeout in
    let st' := State (net_log st ++ [r]) (db_user st) (db_movie st)
                     (session st) (entropy st) in
    match network w (net_log st) r with
    | Reply code body => (Ret (Response code body), st')
    | Unreachable => (Raise (RequestException ConnectionError), st')
    | Silent =>
        match timeout with
        | Some _ => (Raise (RequestException Timeout), st')
        | None => (Hang, st')
        end
    end.

(** [response.raise_for_status()] *)
Definition raise_for_status (r : response) : outcome unit :=
  if ((400 <=? status_code r) && (status_code r <? 600))%Z
  then Raise (RequestException HTTPError) else Ret tt.

(** [response.json()]; the decoding error of [requests] is a
    [RequestException]. *)
Definition json (r : response) : outcome value :=
  match content r with
  | Some v => Ret v
  | None => Raise (RequestException JSONDecodeError)
  end.

(** The three lines every client function starts its [try] with. *)
Definition fetch_json (w : world) (url : string)
    (params : list (string * value)) : M value :=
  response <- requests_get w url params (Some 10) ;;
  lift (raise_for_status response) ;;;
  lift (json response).

Record search_result : Type := SearchResult {
  movies : list TMDBMovie.t;
  page : value;
  total_pages : value;
  total_results : value
}.

Definition search_item (item : value) : outcome TMDBMovie.t :=
  i <~ dict_get item "id" VNone ;;
  t <~ dict_get item "title" (VStr "") ;;
  o <~ dict_get item "overview" (VStr "") ;;
  p <~ dict_get item "poster_path" VNone ;;
  b <~ dict_get item "backdrop_path" VNone ;;
  r <~ dict_get item "release_date" (VStr "") ;;
  va <~ dict_get item "vote_average" (VFloat 0) ;;
  vc <~ dict_get item "vote_count" (VInt 0) ;;
  g <~ dict_get item "genre_ids" (VList []) ;;
  Ret (TMDBMovie.Make i t o p b r va vc g (VList []) (VInt 0) (VStr "")).

(** The body of the [try] of [search_movies] after the fetch. *)
Definition search_of_json (data : value) : outcome search_result :=
  results <~ dict_get data "results" (VList []) ;;
  items <~ iterate results ;;
  movies <~ omap search_item items ;;
  p <~ dict_get data "page" (VInt 1) ;;
  tp <~ dict_get data "total_pages" (VInt 1) ;;
  tr <~ dict_get data "total_results" (VInt 0) ;;
  Ret (SearchResult movies p tp tr).

Definition search_movies (w : world) (query : value) (page : value)
  : M search_result :=
  api_key <- get_api_key w ;;
  let url := TMDB_BASE_URL +:+ "/search/movie" in
  let params := [("api_key", VStr api_key); ("query", query); ("page", page);
                 ("include_adult", VBool false); ("language", VStr "en-US")] in
  try_except
    (data <- fetch_json w url params ;; lift (search_of_json data))
    is_RequestException
    (fun _ => ret (SearchResult [] (VInt 1) (VInt 1) (VInt 0))).

(** The addresses the per-movie calls read. *)
Definition details_url (w : world) (movie_id : value) : string :=
  TMDB_BASE_URL +:+ "/movie/" +:+ py_str w movie_id.
Definition credits_url (w : world) (movie_id : value) : string :=
  TMDB_BASE_URL +:+ "/movie/" +:+ py_str w movie_id +:+ "/credits".
Definition videos_url (w : world) (movie_id : value) : string :=
  TMDB_BASE_URL +:+ "/movie/" +:+ py_str w movie_id +:+ "/videos".

Definition movie_params (api_key : string) : list (string * value) :=
  [("api_key", VStr api_key); ("language", VStr "en-US")].

Definition genre_name (genre : value) : outcome value :=
  dict_get genre "name" (VStr "").

Definition details_of_json (data : value) : outcome (option TMDBMovie.t) :=
  gs <~ dict_get data "genres" (VList []) ;;
  gl <~ iterate gs ;;
  genres <~ omap genre_name gl ;;
  i <~ dict_get data "id" VNone ;;
  t <~ dict_get data "title" (VStr "") ;;
  o <~ dict_get data "overview" (VStr "") ;;
  p <~ dict_get data "poster_path" VNone ;;
  b <~ dict_get data "backdrop_path" VNone ;;
  r <~ dict_get data "release_date" (VStr "") ;;
  va <~ dict_get data "vote_average" (VFloat 0) ;;
  vc <~ dict_get data "vote_count" (VInt 0) ;;
  rt <~ dict_get data "runtime" (VInt 0) ;;
  tg <~ dict_get data "tagline" (VStr "") ;;
  Ret (Some (TMDBMovie.Make i t o p b r va vc (VList []) (VList genres) rt tg)).

Definition get_movie_details (w : world) (movie_id : value)
  : M (option TMDBMovie.t) :=
  api_key <- get_api_key w ;;
  let url := details_url w movie_id in
  let params := movie_params api_key in
  try_except
    (data <- fetch_json w url params ;; lift (details_of_json data))
    is_RequestException
    (fun _ => ret None).

Definition cast_item (item : value) : outcome TMDBCastMember.t :=
  i <~ dict_get item "id" VNone ;;
  n <~ dict_get item "name" (VStr "") ;;
  c <~ dict_get item "character" (VStr "") ;;
  p <~ dict_get item "profile_path" VNone ;;
  Ret (TMDBCastMember.Make i n c p).

Definition credits_of_json (data : value) : outcome (list TMDBCastMember.t) :=
  c <~ dict_get data "cast" (VList []) ;;
  top <~ slice_to 10 c ;;
  items <~ iterate top ;;
  omap cast_item items.

Definition get_movie_credits (w : world) (movie_id : value)
  : M (list TMDBCastMember.t) :=
  api_key <- get_api_key w ;;
  let url := credits_url w movie_id in
  let params := movie_params api_key in
  try_except
    (data <- fetch_json w url params ;; lift (credits_of_json data))
    is_RequestException
    (fun _ => ret []).

Definition video_item (item : value) : outcome TMDBVideo.t :=
  i <~ dict_get item "id" (VStr "") ;;
  k <~ dict_get item "key" (VStr "") ;;
  n <~ dict_get item "name" (VStr "") ;;
  s <~ dict_get item "site" (VStr "") ;;
  t <~ dict_get item "type" (VStr "") ;;
  Ret (TMDBVideo.Make i k n s t).

(** [videos.sort(key=lambda v: (v.type != "Trailer", v.type != "Teaser"))] *)
Definition sort_videos (videos : list TMDBVideo.t) : list TMDBVideo.t :=
  list_sort TMDBVideo.sort_key pair_lt videos.

Definition videos_of_json (data : value) : outcome (list TMDBVideo.t) :=
  results <~ dict_get data "results" (VList []) ;;
  items <~ iterate results ;;
  videos <~ omap video_item items ;;
  Ret (sort_videos videos).

Definition get_movie_videos (w : world) (movie_id : value)
  : M (list TMDBVideo.t) :=
  api_key <- get_api_key w ;;
  let url := videos_url w movie_id in
  let params := movie_params api_key in
  try_except
    (data <- fetch_json w url params ;; lift (videos_of_json data))
    is_RequestException
    (fun _ => ret []).

Record movie_info : Type := MovieInfo {
  movie : TMDBMovie.t;
  cast : list TMDBCastMember.t;
  videos : list TMDBVideo.t;
  trailer : option TMDBVideo.t
}.

(** Truth value of an [Optional[str]]. *)
Definition truthy_url (u : option string) : bool :=
  match u with
  | Some s => negb (String.eqb s "")
  | None => false
  end.

(** The loop of [get_full_movie_info]: the first video whose
    [youtube_url] is truthy, then [break]. *)
Fixpoint first_trailer (w : world) (videos : list TMDBVideo.t)
  : outcome (option TMDBVideo.t) :=
  match videos with
  | [] => Ret None
  | video :: rest =>
      url <~ TMDBVideo.youtube_url w video ;;
      if truthy_url url then Ret (Some video) else first_trailer w rest
  end.

(** A dataclass instance is always truthy, so [if not movie] tests for
    [None] only. *)
Definition get_full_movie_info (w : world) (movie_id : value)
  : M (option movie_info) :=
  movie <- get_movie_details w movie_id ;;
  match movie with
  | None => ret None
  | Some movie =>
      cast <- get_movie_credits w movie_id ;;
      videos <- get_movie_videos w movie_id ;;
      trailer <- lift (first_trailer w videos) ;;
      ret (Some (MovieInfo movie cast videos trailer))
  end.

Fixpoint find_director (crew : list value) : outcome value :=
  match crew with
  | [] => Ret (VStr "")
  | crew_member :: rest =>
      job <~ dict_get crew_member "job" VNone ;;
      if eq_str job "Director" then dict_get crew_member "name" (VStr "")
      else find_director rest
  end.

Definition director_of_json (data : value) : outcome value :=
  crew <~ dict_get data "crew" (VList []) ;;
  members <~ iterate crew ;;
  find_director members.

Definition get_director (w : world) (movie_id : value) : M value :=
  api_key <- get_api_key w ;;
  let url := credits_url w movie_id in
  let params := movie_params api_key in
  try_except
    (data <- fetch_json w url params ;; lift (director_of_json data))
    is_RequestException
    (fun _ => ret (VStr "")).

(** No [timeout] and no [raise_for_status] here; [except Exception]
    catches whatever is raised. *)
Definition get_featured_indian_movies (w : world) (limit : nat) : M value :=
  api_key <- get_api_key w ;;
  let url := TMDB_BASE_URL +:+ "/discover/movie" in
  let params := [("api_key", VStr api_key); ("language", VStr "en-US");
                 ("sort_by", VStr "popularity.desc");
                 ("with_origin_country", VStr "IN"); ("page", VInt 1)] in
  try_except
    (r <- requests_get w url params None ;;
     lift (response <~ json r ;;
           movies <~ dict_get response "results" (VList []) ;;
           slice_to limit movies))
    (fun _ => true)
    (fun _ => ret (VList [])).

End tmdb.

(** ** Equality of values, as a store query compares them *)

Definition value_eq_dec : forall a b : value, {a = b} + {a <> b}.
Proof.
  fix IH 1.
  decide equality.
  - apply bool_dec.
  - apply Z.eq_dec.
  - decide equality; [apply Pos.eq_dec | apply Z.eq_dec].
  - apply string_dec.
  - apply (List.list_eq_dec IH).
  - apply List.list_eq_dec. decide equality. apply string_dec.
Defined.

#[global] Instance value_eq : EqDecision value := value_eq_dec.

(** * The record types of [models.py] *)

Module models.

(** Modelled from the spec: [movie_library/models.py], the dataclass
    [Movie] that [routes.py] imports, is not among the sources.  Its
    fields are the ones of the data model (identity, title, director,
    release year, optional cast list, tag list, description, video
    reference, rating, last-watched timestamp) under the names
    [routes.py] uses; [series] is the further list [edit_movie] assigns.
    The four fields [add_movie] passes are required, the others default
    to an empty list, to [None], and the rating to zero. *)
Module Movie.
Record t : Type := Make {
  _id : value;
  title : value;
  director : value;
  year : value;
  cast : value;
  series : value;
  last_watched : value;
  rating : value;
  tags : value;
  description : value;
  video_link : value
}.

Definition fields : list string :=
  ["_id"; "title"; "director"; "year"; "cast"; "series"; "last_watched";
   "rating"; "tags"; "description"; "video_link"].

(** The constructor applied to an unpacked mapping: [None] is not a
    mapping, an unknown keyword or a missing required one is refused. *)
Definition new (kwargs : option doc) : outcome t :=
  match kwargs with
  | None => Raise TypeError
  | Some d =>
      if bool_decide (map_Forall (fun k _ => k ∈ fields) d) then
        match d !! "_id", d !! "title", d !! "director", d !! "year" with
        | Some i, Some t, Some dr, Some y =>
            Ret (Make i t dr y
                   (default (VList []) (d !! "cast"))
                   (default (VList []) (d !! "series"))
                   (default VNone (d !! "last_watched"))
                   (default (VInt 0) (d !! "rating"))
                   (default (VList []) (d !! "tags"))
                   (default VNone (d !! "description"))
                   (default VNone (d !! "video_link")))
        | _, _, _, _ => Raise TypeError
        end
      else Raise TypeError
  end.

(** [dataclasses.asdict(movie)] *)
Definition asdict (m : t) : doc :=
  <["_id" := _id m]> (<["title" := title m]> (<["director" := director m]>
  (<["year" := year m]> (<["cast" := cast m]> (<["series" := series m]>
  (<["last_watched" := last_watched m]> (<["rating" := rating m]>
  (<["tags" := tags m]> (<["description" := description m]>
  (<["video_link" := video_link m]> ∅)))))))))).
End Movie.

(** Modelled from the spec: the dataclass [User] of the same missing
    file.  Identity, email and password hash are required; name, bio and
    avatar default to the empty string and the watchlist [movies] to an
    empty list. *)
Module User.
Record t : Type := Make {
  _id : value;
  email : value;
  password : value;
  name : value;
  bio : value;
  avatar_url : value;
  movies : value
}.

Definition fields : list string :=
  ["_id"; "email"; "password"; "name"; "bio"; "avatar_url"; "movies"].

Definition new (kwargs : option doc) : outcome t :=
  match kwargs with
  | None => Raise TypeError
  | Some d =>
      if bool_decide (map_Forall (fun k _ => k ∈ fields) d) then
        match d !! "_id", d !! "email", d !! "password" with
        | Some i, Some e, Some p =>
            Ret (Make i e p
                   (default (VStr "") (d !! "name"))
                   (default (VStr "") (d !! "bio"))
                   (default (VStr "") (d !! "avatar_url"))
                   (default (VList []) (d !! "movies")))
        | _, _, _ => Raise TypeError
        end
      else Raise TypeError
  end.

Definition asdict (u : t) : doc :=
  <["_id" := _id u]> (<["email" := email u]> (<["password" := password u]>
  (<["name" := name u]> (<["bio" := bio u]> (<["avatar_url" := avatar_url u]>
  (<["movies" := movies u]> ∅)))))).
End User.

End models.

(** * The document store, as the views drive it through pymongo *)

Module db.

Definition matches (field : string) (v : value) (d : doc) : bool :=
  bool_decide (d !! field = Some v).

(** [collection.find_one({field: v})]: the first match, else [None]. *)
Definition find_one (c : list doc) (field : string) (v : value) : option doc :=
  List.find (matches field v) c.

(** [collection.insert_one(d)]: the identity must be new. *)
Definition insert_one (c : list doc) (d : doc) : outcome (list doc) :=
  match d !! "_id" with
  | Some i =>
      match find_one c "_id" i with
      | Some _ => Raise DuplicateKeyError
      | None => Ret (c ++ [d])
      end
  | None => Ret (c ++ [d])
  end.

(** [update_one] rewrites the first match and is silent without one. *)
Fixpoint update_first (field : string) (v : value) (f : doc -> outcome doc)
    (c : list doc) : outcome (list doc) :=
  match c with
  | [] => Ret []
  | d :: r =>
      if matches field v d then d' <~ f d ;; Ret (d' :: r)
      else r' <~ update_first field v f r ;; Ret (d :: r')
  end.

(** [{"$set": {k: x}}] *)
Definition set_field (k : string) (x : value) (d : doc) : outcome doc :=
  Ret (<[k := x]> d).

(** [{"$push": {k: x}}]: appends to an array, creates it when the field
    is missing, refuses any other value. *)
Definition push_field (k : string) (x : value) (d : doc) : outcome doc :=
  match d !! k with
  | None => Ret (<[k := VList [x]]> d)
  | Some (VList l) => Ret (<[k := VList (l ++ [x])]> d)
  | Some _ => Raise TypeError
  end.

End db.

(** * What the views use of Flask *)

Module flask.

Inductive location : Type :=
| Url (endpoint : string) (args : list (string * value))
| Raw (target : value).

Inductive context : Type :=
| ctx_form
| ctx_movies (movies : list value)
| ctx_movie (movie : models.Movie.t)
| ctx_tmdb (movie : tmdb.TMDBMovie.t) (cast : list tmdb.TMDBCastMember.t)
           (trailer : option tmdb.TMDBVideo.t) (director : value).

Inductive response : Type :=
| redirect (to : location)
| render_template (template : string) (ctx : context).

(** The view functions registered on the blueprint [pages], each with
    the arguments its rule needs, and the blueprint's static files. *)
Definition endpoints : list (string * list string) :=
  [("home", []); ("index", []); ("register", []); ("login", []);
   ("logout", []); ("add_movie", []); ("edit_movie", ["_id"]);
   ("movie", ["_id"]); ("rate_movie", ["_id"]); ("watch_today", ["_id"]);
   ("toggle_theme", []); ("profile", []); ("search", []);
   ("tmdb_movie", ["movie_id"]); ("add_from_tmdb", ["movie_id"]);
   ("add_featured", ["movie_id"]); ("static", ["filename"])].

Fixpoint rule_of (endpoint : string) (l : list (string * list string))
  : option (list string) :=
  match l with
  | [] => None
  | (e, needed) :: r => if String.eqb endpoint e then Some needed else rule_of endpoint r
  end.

(** [url_for(".endpoint", **args)]: an endpoint the blueprint does not
    have, or a rule argument left out, is a [BuildError]. *)
Definition url_for (endpoint : string) (args : list (string * value)) : M location :=
  match rule_of endpoint endpoints with
  | Some needed =>
      if forallb (fun a => bool_decide (is_Some (assoc a args))) needed
      then ret (Url endpoint args) else raise BuildError
  | None => raise BuildError
  end.

Definition with_session (st : state) (s : gmap string value) : state :=
  State (net_log st) (db_user st) (db_movie st) s (entropy st).
Definition with_db_user (st : state) (c : list doc) : state :=
  State (net_log st) c (db_movie st) (session st) (entropy st).
Definition with_db_movie (st : state) (c : list doc) : state :=
  State (net_log st) (db_user st) c (session st) (entropy st).

(** [session.get(k)] *)
Definition session_get (k : string) : M value :=
  fun st => (Ret (default VNone (session st !! k)), st).

(** [session[k]] *)
Definition session_item (k : string) : M value :=
  fun st => match session st !! k with
            | Some v => (Ret v, st)
            | None => (Raise KeyError, st)
            end.

(** [session[k] = v] *)
Definition session_set (k : string) (v : value) : M unit :=
  fun st => (Ret tt, with_session st (<[k := v]> (session st))).

(** [session.clear()] *)
Definition session_clear : M unit :=
  fun st => (Ret tt, with_session st ∅).

(** [flash(message, category)]: the pair joins the list Flask keeps in
    the session under [_flashes]. *)
Definition flash (message category : string) : M unit :=
  fun st =>
    let entry := VList [VStr category; VStr message] in
    match session st !! "_flashes" with
    | None => (Ret tt, with_session st (<["_flashes" := VList [entry]]> (session st)))
    | Some (VList l) =>
        (Ret tt, with_session st (<["_flashes" := VList (l ++ [entry])]> (session st)))
    | Some _ => (Raise AttributeError, st)
    end.

(** [uuid.uuid4().hex] *)
Definition uuid4 (w : world) : M string :=
  fun st => (Ret (uuid4_hex w (entropy st)),
             State (net_log st) (db_user st) (db_movie st) (session st)
                   (S (entropy st))).

(** [pbkdf2_sha256.hash(secret)], salted afresh at each call. *)
Definition pbkdf2_hash (w : world) (secret : string) : M string :=
  fun st => (Ret (pbkdf2_sha256_hash w (entropy st) secret),
             State (net_log st) (db_user st) (db_movie st) (session st)
                   (S (entropy st))).

(** [datetime.datetime.today()] *)
Definition today (w : world) : M value :=
  fun st => (Ret (datetime_today w (entropy st)),
             State (net_log st) (db_user st) (db_movie st) (session st)
                   (S (entropy st))).

Definition movie_find_one (field : string) (v : value) : M (option doc) :=
  fun st => (Ret (db.find_one (db_movie st) field v), st).

Definition user_find_one (field : string) (v : value) : M (option doc) :=
  fun st => (Ret (db.find_one (db_user st) field v), st).

Definition movie_insert_one (d : doc) : M unit :=
  fun st => match db.insert_one (db_movie st) d with
            | Ret c => (Ret tt, with_db_movie st c)
            | Raise e => (Raise e, st)
            | Hang => (Hang, st)
            end.

Definition user_insert_one (d : doc) : M unit :=
  fun st => match db.insert_one (db_user st) d with
            | Ret c => (Ret tt, with_db_user st c)
            | Raise e => (Raise e, st)
            | Hang => (Hang, st)
            end.

Definition movie_update_one (field : string) (v : value)
    (f : doc -> outcome doc) : M unit :=
  fun st => match db.update_first field v f (db_movie st) with
            | Ret c => (Ret tt, with_db_movie st c)
            | Raise e => (Raise e, st)
            | Hang => (Hang, st)
            end.

Definition user_update_one (field : string) (v : value)
    (f : doc -> outcome doc) : M unit :=
  fun st => match db.update_first field v f (db_user st) with
            | Ret c => (Ret tt, with_db_user st c)
            | Raise e => (Raise e, st)
            | Hang => (Hang, st)
            end.

End flask.

(** * [routes.py]: the views *)

Module routes.
Import flask.

(** The decorator: the guard is [session.get("email") is None]. *)
Definition login_required (route : M response) : M response :=
  email <- session_get "email" ;;
  if bool_decide (email = VNone)
  then to <- url_for "login" [] ;; ret (redirect to)
  else route.

Definition featured_item (w : world) (movie : value) : M value :=
  i0 <- lift (getitem movie "id") ;;
  director <- tmdb.get_director w i0 ;;
  i <- lift (getitem movie "id") ;;
  t <- lift (getitem movie "title") ;;
  p <- lift (dict_get movie "poster_path" VNone) ;;
  r <- lift (dict_get movie "release_date" (VStr "N/A")) ;;
  v <- lift (dict_get movie "vote_average" (VFloat 0)) ;;
  ret (VDict [("id", i); ("title", t); ("poster_path", p);
              ("release_date", r); ("vote_average", v); ("director", director)]).

(** One unguarded GET, without a timeout. *)
Definition fetch_featured_movies (w : world) : M (list value) :=
  api_key <- tmdb.get_api_key w ;;
  let url := "https://api.themoviedb.org/3/movie/now_playing?api_key="
             +:+ api_key +:+ "&language=en-US&page=1" in
  r <- tmdb.requests_get w url [] None ;;
  data <- lift (tmdb.json r) ;;
  results <- lift (dict_get data "results" (VList [])) ;;
  top <- lift (slice_to 8 results) ;;
  items <- lift (iterate top) ;;
  for_each (featured_item w) items.

Definition home_item (w : world) (movie : value) : M value :=
  movie_id <- lift (getitem movie "id") ;;
  t <- lift (dict_get movie "title" (VStr "No Title")) ;;
  p <- lift (dict_get movie "poster_path" VNone) ;;
  r <- lift (dict_get movie "release_date" (VStr "")) ;;
  v <- lift (dict_get movie "vote_average" (VInt 0)) ;;
  director <- tmdb.get_director w movie_id ;;
  ret (VDict [("id", movie_id); ("title", t); ("poster_path", p);
              ("release_date", r); ("vote_average", v); ("director", director)]).

Definition home (w : world) : M response :=
  data <- tmdb.get_featured_indian_movies w 12 ;;
  items <- lift (iterate data) ;;
  movies <- for_each (home_item w) items ;;
  ret (render_template "home.html" (ctx_movies movies)).

(** [valid] is [form.validate_on_submit()]: a POST whose fields pass the
    validators of the form. *)
Definition register (w : world) (valid : bool) (email password : string)
  : M response :=
  e <- session_get "email" ;;
  if truthy e then to <- url_for "home" [] ;; ret (redirect to)
  else if valid then
    i <- uuid4 w ;;
    h <- pbkdf2_hash w password ;;
    let user := models.User.Make (VStr i) (VStr email) (VStr h)
                  (VStr "") (VStr "") (VStr "") (VList []) in
    user_insert_one (models.User.asdict user) ;;;
    flash "User registered successfully" "success" ;;;
    to <- url_for "login" [] ;;
    ret (redirect to)
  else ret (render_template "register.html" ctx_form).

(** Truth value of what [find_one] returns. *)
Definition found (d : option doc) : bool :=
  match d with
  | Some m => negb (bool_decide (m = ∅))
  | None => false
  end.

Definition login (w : world) (valid : bool) (email password : string)
  : M response :=
  e <- session_get "email" ;;
  if truthy e then to <- url_for "home" [] ;; ret (redirect to)
  else if valid then
    user_data <- user_find_one "email" (VStr email) ;;
    if negb (found user_data) then
      flash "Login credins=tials not correct" "danger" ;;;
      to <- url_for "login" [] ;;
      ret (redirect to)
    else
      user <- lift (models.User.new user_data) ;;
      ok <- lift (pbkdf2_sha256_verify w password (models.User.password user)) ;;
      if ok then
        session_set "user_id" (models.User._id user) ;;;
        session_set "email" (models.User.email user) ;;;
        to <- url_for "home" [] ;;
        ret (redirect to)
      else
        flash "Login credins=tials not correct" "danger" ;;;
        ret (render_template "login.html" ctx_form)
  else ret (render_template "login.html" ctx_form).

Definition logout : M response :=
  current_theme <- session_get "theme" ;;
  session_clear ;;;
  session_set "theme" current_theme ;;;
  to <- url_for "login" [] ;;
  ret (redirect to).

Definition movie (_id : string) : M response :=
  found <- movie_find_one "_id" (VStr _id) ;;
  movie <- lift (models.Movie.new found) ;;
  ret (render_template "movie_details.html" (ctx_movie movie)).

(** [rating] is [request.args.get("rating")]. *)
Definition rate_movie (_id : string) (rating : value) : M response :=
  login_required (
    rating <- lift (py_int rating) ;;
    movie_update_one "_id" (VStr _id) (db.set_field "rating" (VInt rating)) ;;;
    to <- url_for "movie" [("_id", VStr _id)] ;;
    ret (redirect to)).

Definition watch_today (w : world) (_id : string) : M response :=
  login_required (
    now <- today w ;;
    movie_update_one "_id" (VStr _id) (db.set_field "last_watched" now) ;;;
    to <- url_for "movie" [("_id", VStr _id)] ;;
    ret (redirect to)).

(** [current_page] is [request.args.get("current_page")]. *)
Definition toggle_theme (current_page : value) : M response :=
  current_theme <- session_get "theme" ;;
  (if eq_str current_theme "dark"
   then session_set "theme" (VStr "light")
   else session_set "theme" (VStr "dark")) ;;;
  ret (redirect (Raw current_page)).

Definition tmdb_movie (w : world) (movie_id : Z) : M response :=
  login_required (
    movie_info <- tmdb.get_full_movie_info w (VInt movie_id) ;;
    match movie_info with
    | None =>
        flash "Movie not found" "danger" ;;;
        to <- url_for "search" [] ;;
        ret (redirect to)
    | Some info =>
        director <- tmdb.get_director w (VInt movie_id) ;;
        ret (render_template "tmdb_movie.html"
               (ctx_tmdb (tmdb.movie info) (tmdb.cast info) (tmdb.trailer info)
                         director))
    end).

(** An [Optional[str]] as a value. *)
Definition opt_value (u : option string) : value :=
  match u with
  | Some s => VStr s
  | None => VNone
  end.

(** [add_from_tmdb]: the link stays empty unless the trailer and its
    [youtube_url] are both truthy.  A dataclass instance is always truthy,
    so the trailer is falsy only when it is [None]. *)
Definition video_link_of (w : world) (trailer : option tmdb.TMDBVideo.t)
  : outcome value :=
  match trailer with
  | Some trailer =>
      u <~ tmdb.TMDBVideo.youtube_url w trailer ;;
      if tmdb.truthy_url u
      then u' <~ tmdb.TMDBVideo.youtube_url w trailer ;; Ret (opt_value u')
      else Ret (VStr "")
  | None => Ret (VStr "")
  end.

(** [add_featured]: [trailer.youtube_url if trailer else ""] *)
Definition trailer_url_of (w : world) (trailer : option tmdb.TMDBVideo.t)
  : outcome value :=
  match trailer with
  | Some trailer => u <~ tmdb.TMDBVideo.youtube_url w trailer ;; Ret (opt_value u)
  | None => Ret (VStr "")
  end.

Definition cast_names (cast : list tmdb.TMDBCastMember.t) : value :=
  VList (map tmdb.TMDBCastMember.name cast).

Definition add_from_tmdb (w : world) (movie_id : Z) : M response :=
  login_required (
    movie_info <- tmdb.get_full_movie_info w (VInt movie_id) ;;
    match movie_info with
    | None =>
        flash "Movie not found" "danger" ;;;
        to <- url_for "search" [] ;;
        ret (redirect to)
    | Some info =>
        let tmdb_movie_data := tmdb.movie info in
        director <- tmdb.get_director w (VInt movie_id) ;;
        video_link <- lift (video_link_of w (tmdb.trailer info)) ;;
        i <- uuid4 w ;;
        year <- lift (tmdb.TMDBMovie.year tmdb_movie_data) ;;
        let movie := models.Movie.Make (VStr i)
                       (tmdb.TMDBMovie.title tmdb_movie_data)
                       director (VInt year)
                       (cast_names (tmdb.cast info))
                       (VList []) VNone (VInt 0)
                       (tmdb.TMDBMovie.genres tmdb_movie_data)
                       (tmdb.TMDBMovie.overview tmdb_movie_data)
                       video_link in
        movie_insert_one (models.Movie.asdict movie) ;;;
        user_id <- session_item "user_id" ;;
        user_update_one "_id" user_id (db.push_field "movies" (models.Movie._id movie)) ;;;
        flash ("'" +:+ py_str w (models.Movie.title movie)
               +:+ "' added to your watchlist!") "success" ;;;
        to <- url_for "movie" [("_id", models.Movie._id movie)] ;;
        ret (redirect to)
    end).

Definition add_featured (w : world) (movie_id : Z) : M response :=
  login_required (
    movie_info <- tmdb.get_full_movie_info w (VInt movie_id) ;;
    match movie_info with
    | None =>
        flash "Could not load movie details." "danger" ;;;
        to <- url_for "home" [] ;;
        ret (redirect to)
    | Some info =>
        let tmdb_movie_data := tmdb.movie info in
        director <- tmdb.get_director w (VInt movie_id) ;;
        trailer_url <- lift (trailer_url_of w (tmdb.trailer info)) ;;
        i <- uuid4 w ;;
        year <- lift (tmdb.TMDBMovie.year tmdb_movie_data) ;;
        let movie := models.Movie.Make (VStr i)
                       (tmdb.TMDBMovie.title tmdb_movie_data)
                       director (VInt year)
                       (cast_names (tmdb.cast info))
                       (VList []) VNone (VInt 0)
                       (tmdb.TMDBMovie.genres tmdb_movie_data)
                       (tmdb.TMDBMovie.overview tmdb_movie_data)
                       trailer_url in
        movie_insert_one (models.Movie.asdict movie) ;;;
        user_id <- session_item "user_id" ;;
        user_update_one "_id" user_id (db.push_field "movies" (models.Movie._id movie)) ;;;
        flash (py_str w (models.Movie.title movie)
               +:+ " added to your watchlist!") "success" ;;;
        to <- url_for "watchlist" [] ;;
        ret (redirect to)
    end).

End routes.

(** * Vocabulary of the statements *)

(** The three groups the sort key of the videos tells apart. *)
Definition is_trailer (v : tmdb.TMDBVideo.t) : bool := eq_str (tmdb.TMDBVideo.type v) "Trailer".
Definition is_teaser (v : tmdb.TMDBVideo.t) : bool := eq_str (tmdb.TMDBVideo.type v) "Teaser".
Definition is_other (v : tmdb.TMDBVideo.t) : bool := negb (is_trailer v) && negb (is_teaser v).

(** The key orders three ranks: trailer, teaser, anything else. *)
Definition rank (v : tmdb.TMDBVideo.t) : nat :=
  if is_trailer v then 0 else if is_teaser v then 1 else 2.

(** The state once [r] has been sent. *)
Definition sent (st : state) (r : request) : state :=
  State (net_log st ++ [r]) (db_user st) (db_movie st) (session st) (entropy st).


(** A reply that is no usable answer: nothing, an HTTP error status, or a
    body that is not JSON. *)
Definition failed (rp : reply) : bool :=
  match rp with
  | Reply code (Some _) => ((400 <=? code) && (code <? 600))%Z
  | _ => true
  end.

(** [session.get("theme")] *)
Definition theme_of (st : state) : value := default VNone (session st !! "theme").

(** What one toggle stores: light after dark, dark after anything else. *)
Definition toggled (t : value) : value :=
  if eq_str t "dark" then VStr "light" else VStr "dark".

(** The messages Flask has put in the session are a list, if any. *)
Definition flashes_ok (s : gmap string value) : Prop :=
  match s !! "_flashes" with
  | None | Some (VList _) => True
  | Some _ => False
  end.

(** The session with one more message queued. *)
Definition flashed (s : gmap string value) (category message : string)
  : gmap string value :=
  let old := match s !! "_flashes" with Some (VList l) => l | _ => [] end in
  <["_flashes" := VList (old ++ [VList [VStr category; VStr message]])]> s.

(** Nobody is logged in: [session.get("email")] is falsy. *)
Definition anonymous (st : state) : Prop :=
  truthy (default VNone (session st !! "email")) = false.





(** The session with the message of a refused login queued. *)
Definition invalid_credentials (s : gmap string value) : gmap string value :=
  flashed s "danger" "Login credins=tials not correct".

(** The request of [get_featured_indian_movies] under API key [k]. *)
Definition discover_request (k : string) : request :=
  Request (tmdb.TMDB_BASE_URL +:+ "/discover/movie")
          [("api_key", VStr k); ("language", VStr "en-US");
           ("sort_by", VStr "popularity.desc");
           ("with_origin_country", VStr "IN"); ("page", VInt 1)]
          None.

(** The request of [fetch_featured_movies] under API key [k]. *)
Definition now_playing_request (k : string) : request :=
  Request ("https://api.themoviedb.org/3/movie/now_playing?api_key="
           +:+ k +:+ "&language=en-US&page=1") [] None.

(** * Sample worlds and states *)

Module examples.

Definition movie_released (date : value) : tmdb.TMDBMovie.t :=
  tmdb.TMDBMovie.Make (VInt 27205) (VStr "Inception") (VStr "") VNone VNone date
    (VFloat 0) (VInt 0) (VList []) (VList []) (VInt 0) (VStr "").

Definition video (key site type : string) : tmdb.TMDBVideo.t :=
  tmdb.TMDBVideo.Make (VStr key) (VStr key) (VStr "") (VStr site) (VStr type).

Definition inception_trailer : tmdb.TMDBVideo.t :=
  tmdb.TMDBVideo.Make (VStr "v2") (VStr "YoHD9XEInc0") (VStr "Official Trailer")
                      (VStr "YouTube") (VStr "Trailer").

Definition some_videos : list tmdb.TMDBVideo.t :=
  [video "c1" "YouTube" "Clip"; video "s1" "YouTube" "Teaser";
   video "t1" "Vimeo" "Trailer"; video "c2" "YouTube" "Clip";
   video "t2" "YouTube" "Trailer"].

Definition details_json : value :=
  VDict [("id", VInt 27205); ("title", VStr "Inception");
         ("overview", VStr "A thief who steals secrets.");
         ("release_date", VStr "2010-07-15");
         ("genres", VList [VDict [("id", VInt 28); ("name", VStr "Action")];
                           VDict [("id", VInt 878); ("name", VStr "Science Fiction")]])].

Definition credits_json : value :=
  VDict [("cast", VList [VDict [("id", VInt 6193); ("name", VStr "Leonardo DiCaprio");
                                ("character", VStr "Cobb")];
                         VDict [("id", VInt 24045); ("name", VStr "Joseph Gordon-Levitt");
                                ("character", VStr "Arthur")]]);
         ("crew", VList [VDict [("job", VStr "Producer"); ("name", VStr "Emma Thomas")];
                         VDict [("job", VStr "Director");
                                ("name", VStr "Christopher Nolan")]])].

Definition videos_json : value :=
  VDict [("results",
          VList [VDict [("id", VStr "v1"); ("key", VStr "abc"); ("name", VStr "Clip");
                        ("site", VStr "Vimeo"); ("type", VStr "Clip")];
                 VDict [("id", VStr "v2"); ("key", VStr "YoHD9XEInc0");
                        ("name", VStr "Official Trailer");
                        ("site", VStr "YouTube"); ("type", VStr "Trailer")]])].

Definition discover_json : value :=
  VDict [("results", VList [VDict [("id", VInt 27205); ("title", VStr "Inception")]])].

(** A catalog that knows one movie. *)
Definition catalog (_ : list request) (r : request) : reply :=
  if String.eqb (req_url r) "https://api.themoviedb.org/3/movie/27205"
  then Reply 200 (Some details_json)
  else if String.eqb (req_url r) "https://api.themoviedb.org/3/movie/27205/credits"
  then Reply 200 (Some credits_json)
  else if String.eqb (req_url r) "https://api.themoviedb.org/3/movie/27205/videos"
  then Reply 200 (Some videos_json)
  else if String.eqb (req_url r) "https://api.themoviedb.org/3/discover/movie"
  then Reply 200 (Some discover_json)
  else Reply 404 None.

(** A toy stand-in for the password hash: salt and secret, tagged. *)
Definition toy_hash (salt : nat) (secret : string) : string :=
  "$toy$" +:+ pretty salt +:+ "$" +:+ secret.

Fixpoint after_salt (s : string) : string :=
  match s with
  | String "$" r => r
  | String _ r => after_salt r
  | EmptyString => EmptyString
  end.

Definition toy_verify (secret : string) (hash : value) : outcome bool :=
  match hash with
  | VStr h =>
      match h with
      | String "$" (String "t" (String "o" (String "y" (String "$" r)))) =>
          Ret (String.eqb (after_salt r) secret)
      | _ => Raise ValueError
      end
  | _ => Raise TypeError
  end.

Definition world_with (net : list request → request → reply) : world :=
  World (Some "key") net (fun _ => "?") (fun n => "id" +:+ pretty n)
        toy_hash toy_verify (fun n => VInt (Z.of_nat n)).

Definition online : world := world_with catalog.
Definition offline : world := world_with (fun _ _ => Unreachable).
Definition stalled : world := world_with (fun _ _ => Silent).

Definition fresh : state := State [] [] [] ∅ 0.

Definition ann : doc :=
  models.User.asdict
    (models.User.Make (VStr "u1") (VStr "ann@example.org")
       (VStr (toy_hash 7 "s3cret")) (VStr "") (VStr "") (VStr "") (VList [])).

(** One registered user, nobody logged in. *)
Definition visitor : state := State [] [ann] [] ∅ 0.

(** The same user, logged in. *)
Definition logged_in : state :=
  State [] [ann] []
        (<["user_id" := VStr "u1"]> (<["email" := VStr "ann@example.org"]> ∅)) 0.

(** The logged-in user with the dark theme chosen. *)
Definition dark_session : state :=
  State [] [ann] [] (<["theme" := VStr "dark"]> (session logged_in)) 0.

End examples.

(** * [routes.py]: the other views of the blueprint *)

Module pages.
Import flask.

(** What these views answer: a response as before, or one of their own
    templates with the data it is given. *)
Inductive page : Type :=
| basic (r : response)
| index_html (movies_data : list models.Movie.t)
| new_movie_html
| movie_form_html (movie : models.Movie.t)
| profile_html (user : models.User.t) (movie_count : Z)
| search_html (query : string) (results : option tmdb.search_result).

(** The decorator [login_required] around a view of this kind. *)
Definition login_required (route : M page) : M page :=
  email <- session_get "email" ;;
  if bool_decide (email = VNone)
  then to <- url_for "login" [] ;; ret (basic (redirect to))
  else route.

(** [collection.find({field: {"$in": vs}})]: the documents, in store
    order, whose field is one of [vs]; the server refuses a [vs] that is
    no array (an error rendered as in [db.push_field]). *)
Definition find_in (c : list doc) (field : string) (vs : value)
  : outcome (list doc) :=
  match vs with
  | VList l =>
      Ret (List.filter
             (fun d => match d !! field with
                       | Some v => bool_decide (v ∈ l)
                       | None => false
                       end) c)
  | _ => Raise TypeError
  end.

Definition index : M page :=
  login_required (
    email <- session_item "email" ;;
    user_data <- user_find_one "email" email ;;
    user <- lift (models.User.new user_data) ;;
    movie_data <- (fun st => (find_in (db_movie st) "_id" (models.User.movies user), st)) ;;
    movies <- lift (omap (fun movie => models.Movie.new (Some movie)) movie_data) ;;
    ret (index_html movies)).


(** [{"$set": fields}] with several fields. *)
Definition set_fields (fields : doc) (d : doc) : outcome doc :=
  Ret (fields ∪ d).


(** [d.setdefault(k, v)], also what [if k not in d: d[k] = v] does. *)
Definition setdefault (k : string) (v : value) (d : doc) : doc :=
  match d !! k with
  | Some _ => d
  | None => <[k := v]> d
  end.

(** [len(v)] *)
Definition len (v : value) : outcome Z :=
  match v with
  | VList l => Ret (Z.of_nat (length l))
  | VStr s => Ret (Z.of_nat (String.length s))
  | VDict d => Ret (Z.of_nat (length d))
  | _ => Raise TypeError
  end.

(** [post] tells a POST from a GET; the three fields are what
    [request.form.get] finds, [None] for a missing one. *)
Definition profile (post : bool) (name bio avatar_url : option string) : M page :=
  login_required (
    email <- session_item "email" ;;
    user_data <- user_find_one "email" email ;;
    match user_data with
    | None => raise TypeError
    | Some user_data =>
        let user_data := setdefault "avatar_url" (VStr "")
                           (setdefault "bio" (VStr "")
                              (setdefault "name" (VStr "") user_data)) in
        user <- lift (models.User.new (Some user_data)) ;;
        movie_count <- lift (if truthy (models.User.movies user)
                             then len (models.User.movies user) else Ret 0) ;;
        if post then
          let name := VStr (pystr.strip (default "" name)) in
          let bio := VStr (pystr.strip (default "" bio)) in
          let avatar_url := VStr (pystr.strip (default "" avatar_url)) in
          user_update_one "_id" (models.User._id user)
            (set_fields (<["name" := name]> (<["bio" := bio]>
                           (<["avatar_url" := avatar_url]> ∅)))) ;;;
          let user := models.User.Make (models.User._id user) (models.User.email user)
                        (models.User.password user) name bio avatar_url
                        (models.User.movies user) in
          flash "Profile updated successfully!" "success" ;;;
          ret (profile_html user movie_count)
        else ret (profile_html user movie_count)
    end).

(** [q] is what the request has under [q], [page_no] the page number
    after its conversion to an integer. *)
Definition search (w : world) (q : option string) (page_no : Z) : M page :=
  login_required (
    let query := pystr.strip (default "" q) in
    if negb (String.eqb query "") then
      results <- tmdb.search_movies w (VStr query) (VInt page_no) ;;
      ret (search_html query (Some results))
    else ret (search_html query None)).

End pages.

(** * [__init__.py]: what every template is given *)

Module app.
Import flask.

(** The context processor: the user document with its optional fields
    filled in, and the size of the watchlist. *)
Definition inject_user_data : M (option doc * Z) :=
  email <- session_get "email" ;;
  if truthy email then
    email <- session_item "email" ;;
    user_data <- user_find_one "email" email ;;
    if routes.found user_data then
      match user_data with
      | Some user_data =>
          let user_data := pages.setdefault "movies" (VList [])
                             (pages.setdefault "bio" (VStr "")
                                (pages.setdefault "avatar_url" (VStr "")
                                   (pages.setdefault "name" (VStr "") user_data))) in
          let watchlist_count :=
            match user_data !! "movies" with
            | Some (VList l) => Z.of_nat (length l)
            | _ => 0
            end in
          ret (Some user_data, watchlist_count)
      | None => ret (None, 0)
      end
    else ret (user_data, 0)
  else ret (None, 0).

End app.

(** * Further vocabulary *)

(** A computation that only sends requests: at most [n] of them, each
    satisfying [P], and nothing else of the state changes. *)
Definition sends (P : request → Prop) (n : nat) {A} (m : M A) : Prop :=
  ∀ st, ∃ rs, (length rs ≤ n)%nat ∧ Forall P rs
    ∧ snd (m st)
      = State (net_log st ++ rs) (db_user st) (db_movie st) (session st) (entropy st).

(** A request made with the ten-second timeout. *)
Definition timed (r : request) : Prop := req_timeout r = Some 10.

(** A computation that writes to neither collection. *)
Definition keeps_store {A} (m : M A) : Prop :=
  ∀ st, db_user (snd (m st)) = db_user st ∧ db_movie (snd (m st)) = db_movie st.

(** A crew entry that is a dictionary and whose job is not "Director". *)
Definition not_director (member : value) : Prop :=
  ∃ d, member = VDict d ∧ eq_str (default VNone (assoc "job" d)) "Director" = false.

(** A video whose site is a string. *)
Definition site_is_text (v : tmdb.TMDBVideo.t) : Prop :=
  ∃ s, tmdb.TMDBVideo.site v = VStr s.

(** * Further sample worlds *)

Module more_examples.

(** The catalog of [examples], in a process started without the key. *)
Definition keyless : world :=
  World None examples.catalog (fun _ => "?") (fun n => "id" +:+ pretty n)
        examples.toy_hash examples.toy_verify (fun n => VInt (Z.of_nat n)).

Definition actor (n : nat) : value :=
  VDict [("id", VInt (Z.of_nat n)); ("name", VStr ("Actor " +:+ pretty n));
         ("character", VStr "Extra")].

(** A credits answer with twelve cast members. *)
Definition crowded_credits : value :=
  VDict [("cast", VList (map actor (seq 0 12)))].

Definition crowded : world :=
  examples.world_with (fun _ _ => Reply 200 (Some crowded_credits)).

End more_examples.

(** A movie record with another rating, another last-watched time. *)
Definition with_rating (m : models.Movie.t) (v : value) : models.Movie.t :=
  models.Movie.Make (models.Movie._id m) (models.Movie.title m)
    (models.Movie.director m) (models.Movie.year m) (models.Movie.cast m)
    (models.Movie.series m) (models.Movie.last_watched m) v
    (models.Movie.tags m) (models.Movie.description m) (models.Movie.video_link m).

Definition with_last_watched (m : models.Movie.t) (v : value) : models.Movie.t :=
  models.Movie.Make (models.Movie._id m) (models.Movie.title m)
    (models.Movie.director m) (models.Movie.year m) (models.Movie.cast m)
    (models.Movie.series m) v (models.Movie.rating m)
    (models.Movie.tags m) (models.Movie.description m) (models.Movie.video_link m).


(** Somebody is logged in: [session.get("email")] is not [None]. *)
Definition logged (st : state) : Prop :=
  default VNone (session st !! "email") ≠ VNone.

(** Every key of a document is a field of [Movie]. *)
Definition movie_keys (d : doc) : Prop :=
  map_Forall (fun k _ => k ∈ models.Movie.fields) d.

(** A string of white space only, the empty one included. *)
Fixpoint blank (s : string) : bool :=
  match s with
  | EmptyString => true
  | String c r => pystr.isspace c && blank r
  end.

(** A stored document that [Movie] can be built from. *)
Definition readable (d : doc) : Prop :=
  ∃ m, models.Movie.new (Some d) = Ret m.


Module library.

Definition inception : models.Movie.t :=
  models.Movie.Make (VStr "m1") (VStr "Inception") (VStr "Christopher Nolan")
    (VInt 2010) (VList [VStr "Leonardo DiCaprio"]) (VList []) VNone (VInt 0)
    (VList [VStr "Action"]) (VStr "A thief who steals secrets.") (VStr "").

(** A user document written before the profile fields existed, with a
    watchlist that names the stored movie and one that is gone. *)
Definition old_ann : doc :=
  <["_id" := VStr "u1"]> (<["email" := VStr "ann@example.org"]>
  (<["password" := VStr (examples.toy_hash 7 "s3cret")]>
  (<["movies" := VList [VStr "m1"; VStr "gone"]]> ∅))).

(** The user logged in, one movie stored. *)
Definition shelf : state :=
  State [] [old_ann] [models.Movie.asdict inception]
        (<["user_id" := VStr "u1"]> (<["email" := VStr "ann@example.org"]> ∅)) 0.

End library.

(** * Properties *)

(** ** Year extraction *)

Section year.
Import tmdb examples.


Lemma to_int_empty : pystr.to_int "" = None.
Proof. reflexivity. Qed.



(** A release date that is not a string is outside the claim: a truthy
    number has no [split]. *)
Example year_of_number :
  TMDBMovie.year (movie_released (VInt 2010)) = Raise AttributeError.
Proof. reflexivity. Qed.
End year.

(** ** The order of the videos *)

Section list_sort_facts.
Context {A K : Type} (key : A → K) (lt : K → K → bool).

Lemma insert_sorted_perm (x : A) (l : list A) :
  Permutation (insert_sorted key lt x l) (x :: l).
Proof.
  induction l as [|y r IH]; simpl; [done|].
  destruct (lt (key y) (key x)); [|done].
  rewrite IH. apply perm_swap.
Qed.

Lemma list_sort_perm (l : list A) : Permutation (list_sort key lt l) l.
Proof.
  induction l as [|x r IH]; simpl; [done|].
  rewrite insert_sorted_perm. by constructor.
Qed.

(** The new element passes every element with a smaller key ... *)
Lemma insert_sorted_app_lt (x : A) (front back : list A) :
  Forall (λ y, lt (key y) (key x) = true) front →
  insert_sorted key lt x (front ++ back) = front ++ insert_sorted key lt x back.
Proof.
  induction 1 as [|y r Hy _ IH]; simpl; [done|].
  by rewrite Hy, IH.
Qed.

(** ... and stops in front of the first one that is not smaller. *)
Lemma insert_sorted_head (x : A) (l : list A) :
  Forall (λ y, lt (key y) (key x) = false) l →
  insert_sorted key lt x l = x :: l.
Proof. destruct 1 as [|y r Hy _]; simpl; [done|]. by rewrite Hy. Qed.
End list_sort_facts.

Section videos.
Import tmdb.

Lemma trailer_not_teaser (v : TMDBVideo.t) : is_trailer v = true → is_teaser v = false.
Proof.
  unfold is_trailer, is_teaser, eq_str. destruct (TMDBVideo.type v); try done.
  intros H%String.eqb_eq. by subst.
Qed.

Lemma Forall_filter_pred {A} (f : A → bool) (P : A → Prop) (l : list A) :
  (∀ y, f y = true → P y) → Forall P (List.filter f l).
Proof.
  intros H. apply Forall_forall. intros y Hy.
  apply list_elem_of_In in Hy. apply filter_In in Hy as [_ Hy]. auto.
Qed.

Lemma pair_lt_rank (x y : TMDBVideo.t) :
  pair_lt (TMDBVideo.sort_key y) (TMDBVideo.sort_key x) = (rank y <? rank x)%nat.
Proof.
  change (TMDBVideo.sort_key y) with (negb (is_trailer y), negb (is_teaser y)).
  change (TMDBVideo.sort_key x) with (negb (is_trailer x), negb (is_teaser x)).
  unfold rank.
  destruct (is_trailer y) eqn:Ty; [rewrite (trailer_not_teaser y Ty)|];
    (destruct (is_trailer x) eqn:Tx; [rewrite (trailer_not_teaser x Tx)|]);
    try destruct (is_teaser y); try destruct (is_teaser x); reflexivity.
Qed.

Lemma is_other_rank (v : TMDBVideo.t) : is_other v = true → rank v = 2%nat.
Proof.
  unfold is_other, rank. intros [H1 H2]%andb_prop.
  apply negb_true_iff in H1, H2. by rewrite H1, H2.
Qed.

Lemma is_teaser_rank (v : TMDBVideo.t) : is_teaser v = true → rank v = 1%nat.
Proof.
  unfold rank. intros H. destruct (is_trailer v) eqn:T; [|by rewrite H].
  rewrite (trailer_not_teaser v T) in H. done.
Qed.

Lemma is_trailer_rank (v : TMDBVideo.t) : is_trailer v = true → rank v = 0%nat.
Proof. unfold rank. by intros ->. Qed.

(** What the sort of [get_movie_videos] computes: the trailers, then the
    teasers, then the rest, each group in its original order. *)
Lemma sort_videos_groups (l : list TMDBVideo.t) :
  sort_videos l
  = List.filter is_trailer l ++ List.filter is_teaser l ++ List.filter is_other l.
Proof.
  unfold sort_videos. induction l as [|x r IH]; [done|].
  cbn [list_sort foldr]. fold (list_sort TMDBVideo.sort_key pair_lt r). rewrite IH.
  cbn [List.filter].
  destruct (is_trailer x) eqn:Ht.
  - assert (Hs := trailer_not_teaser x Ht).
    assert (Ho : is_other x = false) by (unfold is_other; by rewrite Ht).
    rewrite Hs, Ho. cbn [app].
    apply insert_sorted_head. rewrite !Forall_app.
    split_and!; apply Forall_filter_pred; intros y Hy; rewrite pair_lt_rank;
      by rewrite (is_trailer_rank x Ht).
  - destruct (is_teaser x) eqn:Hs.
    + assert (Ho : is_other x = false) by (unfold is_other; by rewrite Ht, Hs).
      rewrite Ho. rewrite insert_sorted_app_lt.
      2:{ apply Forall_filter_pred. intros y Hy. rewrite pair_lt_rank.
          by rewrite (is_trailer_rank y Hy), (is_teaser_rank x Hs). }
      f_equal. cbn [app]. apply insert_sorted_head. rewrite Forall_app.
      split; apply Forall_filter_pred; intros y Hy; rewrite pair_lt_rank;
        rewrite (is_teaser_rank x Hs).
      * by rewrite (is_teaser_rank y Hy).
      * by rewrite (is_other_rank y Hy).
    + assert (Ho : is_other x = true) by (unfold is_other; by rewrite Ht, Hs).
      rewrite Ho. rewrite !(assoc_L (++)). rewrite insert_sorted_app_lt.
      2:{ rewrite Forall_app.
          split; apply Forall_filter_pred; intros y Hy; rewrite pair_lt_rank;
            rewrite (is_other_rank x Ho).
          - by rewrite (is_trailer_rank y Hy).
          - by rewrite (is_teaser_rank y Hy). }
      f_equal. apply insert_sorted_head.
      apply Forall_filter_pred. intros y Hy. rewrite pair_lt_rank.
      by rewrite (is_other_rank x Ho), (is_other_rank y Hy).
Qed.


Lemma filter_filter_all {A} (P f : A → bool) (l : list A) :
  (∀ y, P y = true → f y = true) →
  List.filter P (List.filter f l) = List.filter P l.
Proof.
  intros H. induction l as [|y r IH]; [done|]. cbn [List.filter].
  destruct (f y) eqn:Ef; cbn [List.filter].
  - by rewrite IH.
  - destruct (P y) eqn:Ep; [|done]. rewrite (H y Ep) in Ef. done.
Qed.

Lemma filter_filter_none {A} (P f : A → bool) (l : list A) :
  (∀ y, P y = true → f y = false) →
  List.filter P (List.filter f l) = [].
Proof.
  intros H. induction l as [|y r IH]; [done|]. cbn [List.filter].
  destruct (f y) eqn:Ef; cbn [List.filter]; [|done].
  destruct (P y) eqn:Ep; [|done]. rewrite (H y Ep) in Ef. done.
Qed.




Lemma eq_str_true (v : value) (s : string) : eq_str v s = true → v = VStr s.
Proof. destruct v; try done. by intros ->%String.eqb_eq. Qed.

End videos.

(** ** Running the monad *)

Section monad_facts.
Context {A B : Type}.

Lemma bind_ret_step (m : M A) (k : A → M B) st a st1 :
  m st = (Ret a, st1) → bind m k st = k a st1.
Proof. unfold bind. by intros ->. Qed.

Lemma bind_raise_step (m : M A) (k : A → M B) st e st1 :
  m st = (Raise e, st1) → bind m k st = (Raise e, st1).
Proof. unfold bind. by intros ->. Qed.

Lemma bind_hang_step (m : M A) (k : A → M B) st st1 :
  m st = (Hang, st1) → bind m k st = (Hang, st1).
Proof. unfold bind. by intros ->. Qed.

Lemma bind_ret_inv (m : M A) (k : A → M B) st b st' :
  bind m k st = (Ret b, st') →
  ∃ a st1, m st = (Ret a, st1) ∧ k a st1 = (Ret b, st').
Proof.
  unfold bind. destruct (m st) as [[a|e|] st1]; [eauto|done|done].
Qed.

Lemma lift_ret_inv (o : outcome A) st a st' :
  lift o st = (Ret a, st') → o = Ret a ∧ st' = st.
Proof. unfold lift. by intros [= -> ->]. Qed.
End monad_facts.

(** ** The guarded calls of the client *)

Section client.
Import tmdb.
Context (w : world).

(** What a [try] around one fetch and its decoding amounts to: one GET
    with a ten-second timeout; on any failure of the network or of the
    HTTP exchange the fallback is returned. *)
Lemma try_fetch {T} (url : string) (params : list (string * value))
    (parse : value → outcome T) (fallback : T) (st : state) :
  try_except (data <- fetch_json w url params ;; lift (parse data))
             is_RequestException (fun _ => ret fallback) st
  = let r := Request url params (Some 10) in
    (match network w (net_log st) r with
     | Reply code (Some v) =>
         if ((400 <=? code) && (code <? 600))%Z then Ret fallback
         else match parse v with
              | Raise e => if is_RequestException e then Ret fallback else Raise e
              | o => o
              end
     | _ => Ret fallback
     end, sent st r).
Proof.
  unfold try_except, bind, fetch_json, bind, requests_get, lift, ret,
    raise_for_status, json, sent. cbn.
  destruct (network w (net_log st) _) as [code [v|]| |]; cbn; try done.
  - destruct ((400 <=? code) && (code <? 600))%Z; cbn; [done|].
    destruct (parse v) as [a|e|]; try done. by destruct (is_RequestException e).
  - by destruct ((400 <=? code) && (code <? 600))%Z.
Qed.

Lemma get_api_key_cases (st : state) :
  (∃ k, environ_TMDB_API_KEY w = Some k ∧ k ≠ "" ∧ get_api_key w st = (Ret k, st))
  ∨ get_api_key w st = (Raise ValueError, st).
Proof.
  unfold get_api_key. destruct (environ_TMDB_API_KEY w) as [k|]; [|by right].
  destruct (String.eqb k "") eqn:E; [by right|]. left. exists k.
  apply String.eqb_neq in E. done.
Qed.

Lemma details_of_json_some (data : value) :
  details_of_json data ≠ Ret None.
Proof.
  unfold details_of_json.
  repeat match goal with
         | |- obind ?o _ ≠ _ => destruct o; cbn [obind]; try done
         end.
Qed.
End client.

(** ** The aggregate *)

Section aggregate.
Import tmdb.
Context (w : world).




(** A guarded call that returns has sent exactly its one request. *)
Lemma guarded_call_sent {T} (url : string) (params : string → list (string * value))
    (parse : value → outcome T) (fallback : T) (st st' : state) (a : T) :
  (api_key <- get_api_key w ;;
   try_except (data <- fetch_json w url (params api_key) ;; lift (parse data))
              is_RequestException (fun _ => ret fallback)) st = (Ret a, st') →
  ∃ k, environ_TMDB_API_KEY w = Some k ∧ k ≠ ""
       ∧ st' = sent st (Request url (params k) (Some 10)).
Proof.
  destruct (get_api_key_cases w st) as [(k & Hk & Hne & Hrun)|Hrun].
  - rewrite (bind_ret_step _ _ _ _ _ Hrun), try_fetch. cbn zeta.
    intros [= _ <-]. eauto.
  - by rewrite (bind_raise_step _ _ _ _ _ Hrun).
Qed.

Lemma get_movie_details_none (movie_id : value) (st st' : state) :
  get_movie_details w movie_id st = (Ret None, st') →
  ∃ k, environ_TMDB_API_KEY w = Some k ∧ k ≠ ""
       ∧ st' = sent st (Request (details_url w movie_id) (movie_params k) (Some 10)).
Proof. apply (guarded_call_sent _ movie_params). Qed.

Lemma first_trailer_some (videos : list TMDBVideo.t) (v : TMDBVideo.t) :
  first_trailer w videos = Ret (Some v) →
  In v videos ∧ TMDBVideo.site_is_youtube v = Ret true
  ∧ TMDBVideo.youtube_url w v
    = Ret (Some ("https://www.youtube.com/embed/" +:+ py_str w (TMDBVideo.key v))).
Proof.
  induction videos as [|x r IH]; [done|]. cbn [first_trailer].
  unfold TMDBVideo.youtube_url at 1.
  destruct (TMDBVideo.site_is_youtube x) as [[|]|e|] eqn:Hsite; cbn; try done.
  - intros [= ->]. unfold TMDBVideo.youtube_url. rewrite Hsite. auto.
  - intros H. destruct (IH H) as (? & ? & ?). auto.
Qed.

(** Whatever [get_movie_videos] returns has gone through the sort. *)
Lemma get_movie_videos_sorted (movie_id : value) (st st' : state)
    (vs : list TMDBVideo.t) :
  get_movie_videos w movie_id st = (Ret vs, st') → ∃ raw, vs = sort_videos raw.
Proof.
  unfold get_movie_videos.
  destruct (get_api_key_cases w st) as [(k & _ & _ & Hrun)|Hrun].
  2:{ by rewrite (bind_raise_step _ _ _ _ _ Hrun). }
  rewrite (bind_ret_step _ _ _ _ _ Hrun), try_fetch. cbn zeta.
  assert (Hparse : ∀ data l, videos_of_json data = Ret l → ∃ raw, l = sort_videos raw).
  { intros data l. unfold videos_of_json.
    repeat match goal with
           | |- obind ?o _ = _ → _ => destruct o; cbn [obind]; try done
           end.
    intros [= <-]. eauto. }
  destruct (network w (net_log st) _) as [code [v|]| |];
    try (intros [= <- _]; by exists []).
  destruct ((400 <=? code) && (code <? 600))%Z; [intros [= <- _]; by exists []|].
  destruct (videos_of_json v) as [l|e|] eqn:E.
  - intros [= <- _]. eauto.
  - destruct (is_RequestException e); [intros [= <- _]; by exists []|done].
  - done.
Qed.

Lemma get_full_movie_info_some (movie_id : value) (st st' : state)
    (info : movie_info) :
  get_full_movie_info w movie_id st = (Ret (Some info), st') →
  ∃ st1 st2,
    get_movie_details w movie_id st = (Ret (Some (movie info)), st1)
    ∧ get_movie_credits w movie_id st1 = (Ret (cast info), st2)
    ∧ get_movie_videos w movie_id st2 = (Ret (videos info), st')
    ∧ first_trailer w (videos info) = Ret (trailer info).
Proof.
  unfold get_full_movie_info. intros H.
  apply bind_ret_inv in H as ([m|] & st1 & Hd & H); [|done].
  apply bind_ret_inv in H as (c & st2 & Hc & H).
  apply bind_ret_inv in H as (vs & st3 & Hv & H).
  apply bind_ret_inv in H as (tr & st4 & Ht & H).
  apply lift_ret_inv in Ht as [Ht ->].
  injection H as <- <-. eauto 10.
Qed.


(** C10. The trailer of an aggregate, when there is one, has a playback
    address: its site is the video platform, [youtube_url] is a string
    and not [None], and so is the video link both import views compute
    from it. *)
Theorem trailer_has_playback_url (movie_id : value) (st st' : state)
    (info : movie_info) (v : TMDBVideo.t) :
  get_full_movie_info w movie_id st = (Ret (Some info), st') →
  trailer info = Some v →
  let url := "https://www.youtube.com/embed/" +:+ py_str w (TMDBVideo.key v) in
  In v (videos info)
  ∧ TMDBVideo.site_is_youtube v = Ret true
  ∧ TMDBVideo.youtube_url w v = Ret (Some url)
  ∧ routes.trailer_url_of w (trailer info) = Ret (VStr url)
  ∧ routes.video_link_of w (trailer info) = Ret (VStr url)
  ∧ VStr url ≠ VNone.
Proof.
  intros H Hv url.
  apply get_full_movie_info_some in H as (st1 & st2 & _ & _ & _ & Ht).
  rewrite Hv in Ht. apply first_trailer_some in Ht as (Hin & Hsite & Hurl).
  rewrite Hv. unfold routes.trailer_url_of, routes.video_link_of.
  rewrite Hurl. cbn. done.
Qed.
End aggregate.

Section aggregate_runs.
Import tmdb.


Lemma trailer_has_playback_url_witness :
  TMDBVideo.youtube_url examples.online examples.inception_trailer
  = Ret (Some "https://www.youtube.com/embed/YoHD9XEInc0").
Proof.
  refine (proj1 (proj2 (proj2
    (trailer_has_playback_url examples.online (VInt 27205) examples.fresh _ _
       examples.inception_trailer _ _)))).
  - vm_compute. reflexivity.
  - reflexivity.
Defined.
End aggregate_runs.


(** ** Failures of the catalog *)

Section upstream.
Import tmdb.
Context (w : world) (k : string).
Hypothesis key_set : environ_TMDB_API_KEY w = Some k.
Hypothesis key_filled : k ≠ "".

Lemma get_api_key_set (st : state) : get_api_key w st = (Ret k, st).
Proof.
  unfold get_api_key. rewrite key_set.
  destruct (String.eqb k "") eqn:E; [|done]. by apply String.eqb_eq in E.
Qed.

Lemma try_fetch_failed {T} (url : string) (params : list (string * value))
    (parse : value → outcome T) (fallback : T) (st : state) :
  failed (network w (net_log st) (Request url params (Some 10))) = true →
  try_except (data <- fetch_json w url params ;; lift (parse data))
             is_RequestException (fun _ => ret fallback) st
  = (Ret fallback, sent st (Request url params (Some 10))).
Proof.
  intros H. rewrite try_fetch. cbn zeta.
  destruct (network w (net_log st) _) as [code [v|]| |]; try done.
  cbn in H. by rewrite H.
Qed.

(** The five calls that pass [timeout=10] and catch [RequestException]:
    one request each, and the empty or absent result when it fails. *)
Lemma guarded_calls_degrade (movie_id query page : value) (st : state) :
  (∀ r, req_timeout r = Some 10 → failed (network w (net_log st) r) = true) →
  fst (search_movies w query page st) = Ret (SearchResult [] (VInt 1) (VInt 1) (VInt 0))
  ∧ fst (get_movie_details w movie_id st) = Ret None
  ∧ fst (get_movie_credits w movie_id st) = Ret []
  ∧ fst (get_movie_videos w movie_id st) = Ret []
  ∧ fst (get_director w movie_id st) = Ret (VStr "")
  ∧ (∀ r, r ∈ net_log (snd (get_movie_details w movie_id st)) →
          r ∈ net_log st ∨ req_timeout r = Some 10).
Proof.
  intros Hnet.
  unfold search_movies, get_movie_details, get_movie_credits, get_movie_videos,
    get_director.
  rewrite !(bind_ret_step _ _ _ _ _ (get_api_key_set st)).
  rewrite !try_fetch_failed by (by apply Hnet).
  split_and!; try done.
  cbn. intros r [Hr|Hr%list_elem_of_singleton]%elem_of_app; [by left|].
  right. by subst.
Qed.

(** C2, where the code departs from it.  The two featured-movie calls
    are sent without a timeout: when the catalog accepts the request and
    never answers, [get_featured_indian_movies], and the home view with
    it, never returns; and [fetch_featured_movies] has no handler, so a
    connection failure leaves it as an exception. *)
Theorem featured_calls_unguarded (st : state) :
  (network w (net_log st) (discover_request k) = Silent →
     get_featured_indian_movies w 12 st = (Hang, sent st (discover_request k))
     ∧ routes.home w st = (Hang, sent st (discover_request k)))
  ∧ (network w (net_log st) (now_playing_request k) = Unreachable →
     routes.fetch_featured_movies w st
     = (Raise (RequestException ConnectionError), sent st (now_playing_request k)))
  ∧ (network w (net_log st) (now_playing_request k) = Silent →
     routes.fetch_featured_movies w st = (Hang, sent st (now_playing_request k))).
Proof.
  split_and!.
  - intros Hnet.
    assert (Hf : get_featured_indian_movies w 12 st = (Hang, sent st (discover_request k))).
    { unfold get_featured_indian_movies.
      rewrite (bind_ret_step _ _ _ _ _ (get_api_key_set st)).
      unfold try_except, bind, requests_get. fold (discover_request k).
      by rewrite Hnet. }
    split; [done|]. unfold routes.home. by rewrite (bind_hang_step _ _ _ _ Hf).
  - intros Hnet. unfold routes.fetch_featured_movies.
    rewrite (bind_ret_step _ _ _ _ _ (get_api_key_set st)).
    unfold bind at 1. unfold requests_get. fold (now_playing_request k).
    by rewrite Hnet.
  - intros Hnet. unfold routes.fetch_featured_movies.
    rewrite (bind_ret_step _ _ _ _ _ (get_api_key_set st)).
    unfold bind at 1. unfold requests_get. fold (now_playing_request k).
    by rewrite Hnet.
Qed.
End upstream.

Section upstream_runs.
Import examples.

Lemma featured_calls_unguarded_witness :
  fst (routes.home stalled fresh) = Hang
  ∧ fst (routes.fetch_featured_movies offline fresh)
    = Raise (RequestException ConnectionError).
Proof.
  split.
  - assert (Hk : "key" ≠ "") by done.
    rewrite (proj2 (proj1 (featured_calls_unguarded stalled "key" eq_refl Hk fresh)
                      eq_refl)).
    reflexivity.
  - assert (Hk : "key" ≠ "") by done.
    rewrite (proj1 (proj2 (featured_calls_unguarded offline "key" eq_refl Hk fresh))
               eq_refl).
    reflexivity.
Defined.
End upstream_runs.

(** ** Records that are not there *)

Section not_found.
Import flask.

Lemma url_for_known (endpoint : string) (args : list (string * value)) (st : state) :
  In endpoint ["home"; "login"; "search"] →
  url_for endpoint args st = (Ret (Url endpoint args), st).
Proof. intros [<-|[<-|[<-|[]]]]; reflexivity. Qed.

Lemma url_for_movie (i : value) (st : state) :
  url_for "movie" [("_id", i)] st = (Ret (Url "movie" [("_id", i)]), st).
Proof. reflexivity. Qed.

(** No view is registered under the name [add_featured] redirects to. *)
Lemma url_for_watchlist (args : list (string * value)) (st : state) :
  url_for "watchlist" args st = (Raise BuildError, st).
Proof. reflexivity. Qed.

Lemma update_first_absent (field : string) (v : value) (f : doc → outcome doc)
    (c : list doc) :
  db.find_one c field v = None → db.update_first field v f c = Ret c.
Proof.
  unfold db.find_one. induction c as [|d r IH]; [done|]. cbn.
  destruct (db.matches field v d); [done|]. intros H. by rewrite (IH H).
Qed.

Lemma with_db_movie_same (st : state) : with_db_movie st (db_movie st) = st.
Proof. by destruct st. Qed.

(** The guard lets a request through when an email is bound. *)
Lemma login_required_pass (route : M response) (st : state) :
  default VNone (session st !! "email") ≠ VNone →
  routes.login_required route st = route st.
Proof.
  intros H. unfold routes.login_required, bind, session_get.
  by rewrite bool_decide_eq_false_2.
Qed.

(** The rate and watch views on an absent record: the update finds
    nothing, the store is left as it was, and the client is sent to the
    details page. *)
Lemma rate_watch_absent (w : world) (_id : string) (n : Z) (st : state) :
  default VNone (session st !! "email") ≠ VNone →
  db.find_one (db_movie st) "_id" (VStr _id) = None →
  routes.rate_movie _id (VInt n) st
  = (Ret (redirect (Url "movie" [("_id", VStr _id)])), st)
  ∧ fst (routes.watch_today w _id st)
    = Ret (redirect (Url "movie" [("_id", VStr _id)]))
  ∧ db_movie (snd (routes.watch_today w _id st)) = db_movie st.
Proof.
  intros Hin Habs. unfold routes.rate_movie, routes.watch_today.
  rewrite !login_required_pass by done.
  unfold bind, lift, today, movie_update_one. cbn.
  rewrite !update_first_absent by done.
  rewrite with_db_movie_same. done.
Qed.

(** Past its two guards [add_featured] cannot answer: every response it
    gives is one of the two early redirects. *)
Lemma add_featured_answers (w : world) (movie_id : Z) (st st' : state)
    (r : response) :
  routes.add_featured w movie_id st = (Ret r, st') →
  r = redirect (Url "login" []) ∨ r = redirect (Url "home" []).
Proof.
  unfold routes.add_featured, routes.login_required. intros H.
  apply bind_ret_inv in H as (e & st1 & _ & H).
  destruct (bool_decide (e = VNone)).
  { apply bind_ret_inv in H as (to & st2 & Hto & H).
    injection Hto as <- _. injection H as <- _. by left. }
  apply bind_ret_inv in H as ([info|] & st2 & _ & H).
  - repeat (apply bind_ret_inv in H as (? & ? & ? & H)).
    match goal with
    | Hto : url_for "watchlist" _ _ = _ |- _ => by rewrite url_for_watchlist in Hto
    end.
  - apply bind_ret_inv in H as (? & ? & _ & H).
    apply bind_ret_inv in H as (to & ? & Hto & H).
    injection Hto as <- _. injection H as <- _. by right.
Qed.

(** C1, where the code departs from it.  The details view builds the
    record from whatever [find_one] returns: for an id that is not in
    the store this is [None], and the view raises [TypeError], leaving
    the state as it was.  The rate view raises in the same way when the
    request carries no rating. *)
Theorem movie_absent_raises (_id : string) (st : state) :
  (db.find_one (db_movie st) "_id" (VStr _id) = None →
     routes.movie _id st = (Raise TypeError, st))
  ∧ (default VNone (session st !! "email") ≠ VNone →
     routes.rate_movie _id VNone st = (Raise TypeError, st)).
Proof.
  split.
  - intros H. unfold routes.movie, bind, movie_find_one. by rewrite H.
  - intros H. unfold routes.rate_movie. by rewrite login_required_pass.
Qed.
End not_found.

Section not_found_runs.
Import examples.

Lemma movie_absent_raises_witness :
  routes.movie "0123abcd" logged_in = (Raise TypeError, logged_in)
  ∧ routes.rate_movie "0123abcd" VNone logged_in = (Raise TypeError, logged_in).
Proof.
  split.
  - apply (proj1 (movie_absent_raises "0123abcd" logged_in)). reflexivity.
  - apply (proj2 (movie_absent_raises "0123abcd" logged_in)). vm_compute. done.
Defined.

(** An import through [add_featured] stores the movie and then fails on
    the redirect. *)
Example add_featured_run :
  fst (routes.add_featured online 27205 logged_in) = Raise BuildError
  ∧ length (db_movie (snd (routes.add_featured online 27205 logged_in))) = 1%nat.
Proof. vm_compute. done. Qed.
End not_found_runs.

(** ** Sessions *)

Section sessions.
Import flask.

Lemma flash_run (message category : string) (st : state) :
  flashes_ok (session st) →
  flash message category st
  = (Ret tt, with_session st (flashed (session st) category message)).
Proof.
  unfold flashes_ok, flash, flashed.
  destruct (session st !! "_flashes") as [[]|]; done.
Qed.

Lemma flashed_other (s : gmap string value) (category message key : string) :
  key ≠ "_flashes" → flashed s category message !! key = s !! key.
Proof. intros H. unfold flashed. by rewrite lookup_insert_ne. Qed.

Lemma toggle_theme_run (current_page : value) (st : state) :
  routes.toggle_theme current_page st
  = (Ret (redirect (Raw current_page)),
     with_session st (<["theme" := toggled (theme_of st)]> (session st))).
Proof.
  unfold routes.toggle_theme, bind, session_get, session_set, toggled, theme_of.
  by destruct (eq_str _ "dark").
Qed.

Lemma logout_run (st : state) :
  routes.logout st
  = (Ret (redirect (Url "login" [])), with_session st {["theme" := theme_of st]}).
Proof.
  unfold routes.logout, bind, session_get, session_clear, session_set, theme_of.
  cbn. by rewrite insert_empty.
Qed.

Lemma session_with_session (st : state) (s : gmap string value) :
  session (with_session st s) = s.
Proof. done. Qed.

Lemma theme_of_with_session (st : state) (s : gmap string value) :
  theme_of (with_session st s) = default VNone (s !! "theme").
Proof. done. Qed.

Lemma eq_str_iff (v : value) (s : string) : eq_str v s = true ↔ v = VStr s.
Proof.
  split; [apply eq_str_true|]. intros ->. cbn. by apply String.eqb_eq.
Qed.

(** C8, as the code has it.  Two toggles give back a theme that was
    "dark" or "light"; from any other value, an unset theme included,
    they end on "light".  They touch nothing else in the session, and a
    logout afterwards leaves a session that holds the last-set theme and
    nothing more. *)
Theorem toggle_twice_then_logout (p q : value) (st : state) :
  let st2 := snd (routes.toggle_theme q (snd (routes.toggle_theme p st))) in
  let st3 := snd (routes.logout st2) in
  (theme_of st = VStr "dark" ∨ theme_of st = VStr "light" → theme_of st2 = theme_of st)
  ∧ (theme_of st ≠ VStr "dark" → theme_of st2 = VStr "light")
  ∧ (∀ key, key ≠ "theme" → session st2 !! key = session st !! key)
  ∧ session st3 = {["theme" := theme_of st2]}
  ∧ theme_of st3 = theme_of st2
  ∧ fst (routes.logout st2) = Ret (redirect (Url "login" [])).
Proof.
  intros st2 st3. subst st2 st3.
  rewrite (toggle_theme_run p st). cbn [snd].
  rewrite toggle_theme_run. cbn [snd]. rewrite logout_run. cbn [snd fst].
  set (t := theme_of st).
  rewrite (theme_of_with_session st), lookup_insert_eq. cbn [default from_option].
  rewrite !session_with_session.
  rewrite !theme_of_with_session, !lookup_insert_eq, lookup_singleton_eq.
  cbn [default from_option].
  split_and!.
  - intros [E|E]; rewrite E; reflexivity.
  - intros E. unfold toggled at 2.
    destruct (eq_str t "dark") eqn:D; [by apply eq_str_iff in D|]. reflexivity.
  - intros key Hk. by rewrite !lookup_insert_ne.
  - done.
  - done.
  - done.
Qed.
End sessions.

Section sessions_runs.
Import flask examples.

(** A visitor without a theme: after two toggles the theme is "light",
    not what it was. *)
Lemma toggle_twice_unset_theme :
  theme_of fresh = VNone
  ∧ theme_of (snd (routes.toggle_theme (VStr "/") (snd (routes.toggle_theme (VStr "/") fresh))))
    = VStr "light"
  ∧ theme_of (snd (routes.toggle_theme (VStr "/") (snd (routes.toggle_theme (VStr "/") fresh))))
    ≠ theme_of fresh.
Proof. vm_compute. done. Qed.

Lemma toggle_twice_then_logout_witness :
  theme_of (snd (routes.toggle_theme (VStr "/") (snd (routes.toggle_theme (VStr "/") dark_session))))
  = VStr "dark".
Proof.
  apply (proj1 (toggle_twice_then_logout (VStr "/") (VStr "/") dark_session)).
  left. reflexivity.
Defined.
End sessions_runs.

(** ** Login and registration *)

Section auth.
Import flask.
Context (w : world).

Lemma user_new_nonempty (d : doc) (u : models.User.t) :
  models.User.new (Some d) = Ret u → d ≠ ∅.
Proof.
  unfold models.User.new. intros H ->. rewrite lookup_empty in H.
  by destruct (bool_decide _).
Qed.

(** C7. A login attempt from an anonymous session fails with the
    invalid-credentials message, and binds no identity and no email,
    both when the email belongs to a user whose password hash does not
    verify and when it belongs to nobody: the session differs from the
    one before only by the queued message, and the store is as it was. *)
Theorem login_invalid_credentials (email password : string) (st : state) :
  anonymous st →
  flashes_ok (session st) →
  let st' := with_session st (invalid_credentials (session st)) in
  (∀ d u, db.find_one (db_user st) "email" (VStr email) = Some d →
          models.User.new (Some d) = Ret u →
          pbkdf2_sha256_verify w password (models.User.password u) = Ret false →
          routes.login w true email password st
          = (Ret (render_template "login.html" ctx_form), st'))
  ∧ (db.find_one (db_user st) "email" (VStr email) = None →
     routes.login w true email password st = (Ret (redirect (Url "login" [])), st'))
  ∧ session st' !! "user_id" = session st !! "user_id"
  ∧ session st' !! "email" = session st !! "email"
  ∧ (∀ key, key ≠ "_flashes" → session st' !! key = session st !! key)
  ∧ db_user st' = db_user st.
Proof.
  intros Hanon Hfl st'. subst st'. unfold anonymous in Hanon. split_and!.
  - intros d u Hd Hu Hv. unfold routes.login.
    unfold bind at 1. unfold session_get. rewrite Hanon.
    unfold bind at 1. unfold user_find_one. rewrite Hd.
    unfold routes.found. rewrite (bool_decide_eq_false_2 _ (user_new_nonempty d u Hu)).
    cbn [negb]. unfold bind at 1, lift. rewrite Hu.
    unfold bind at 1. rewrite Hv.
    unfold bind. by rewrite flash_run.
  - intros Hd. unfold routes.login.
    unfold bind at 1. unfold session_get. rewrite Hanon.
    unfold bind at 1. unfold user_find_one. rewrite Hd.
    cbn [routes.found negb]. unfold bind at 1. by rewrite flash_run.
  - by apply flashed_other.
  - by apply flashed_other.
  - intros key Hk. by apply flashed_other.
  - done.
Qed.

End auth.

Section auth_runs.
Import flask examples.

Lemma login_invalid_credentials_witness :
  routes.login online true "ann@example.org" "guess" visitor
  = (Ret (render_template "login.html" ctx_form),
     with_session visitor (invalid_credentials (session visitor)))
  ∧ routes.login online true "bob@example.org" "guess" visitor
    = (Ret (redirect (Url "login" [])),
       with_session visitor (invalid_credentials (session visitor))).
Proof.
  assert (Ha : anonymous visitor) by reflexivity.
  assert (Hf : flashes_ok (session visitor)) by exact I.
  split.
  - eapply (proj1 (login_invalid_credentials online "ann@example.org" "guess"
                     visitor Ha Hf)).
    + reflexivity.
    + vm_compute. reflexivity.
    + reflexivity.
  - apply (proj1 (proj2 (login_invalid_credentials online "bob@example.org" "guess"
                           visitor Ha Hf))).
    reflexivity.
Defined.


End auth_runs.

(** ** Importing a catalog movie *)

Section import.
Import tmdb flask.
Context (w : world).


Lemma find_one_app_fresh (c : list doc) (field : string) (v : value) (d : doc) :
  db.find_one c field v = None → d !! field = Some v →
  db.find_one (c ++ [d]) field v = Some d.
Proof.
  unfold db.find_one. intros Hc Hd. induction c as [|x r IH]; cbn in *.
  - unfold db.matches. by rewrite bool_decide_eq_true_2.
  - destruct (db.matches field v x); [done|]. by apply IH.
Qed.











Section one_import.
Context (movie_id : Z) (st st1 st2 : state) (info : movie_info) (d : value) (y : Z).
Hypothesis logged : default VNone (session st !! "email") ≠ VNone.
Hypothesis got_info : get_full_movie_info w (VInt movie_id) st = (Ret (Some info), st1).
Hypothesis got_director : get_director w (VInt movie_id) st1 = (Ret d, st2).
Hypothesis got_year : TMDBMovie.year (movie info) = Ret y.
Hypothesis fresh_id :
  db.find_one (db_movie st) "_id" (VStr (uuid4_hex w (entropy st))) = None.



End one_import.

End import.

Section import_runs.
Import tmdb flask examples.

End import_runs.

(** ** What a call sends *)

Section sending.
Import tmdb.
Context (w : world).

Lemma sends_weaken (P : request → Prop) (n n' : nat) {A} (m : M A) :
  (n ≤ n')%nat → sends P n m → sends P n' m.
Proof.
  intros Hn Hm st. destruct (Hm st) as (rs & Hl & HP & E).
  exists rs. split_and!; [lia|done..].
Qed.

Lemma sends_pure (P : request → Prop) {A} (m : M A) :
  (∀ st, snd (m st) = st) → sends P 0 m.
Proof.
  intros H st. exists []. rewrite H, app_nil_r. by destruct st.
Qed.

Lemma sends_bind_dep (P : request → Prop) (a b : nat) {A B} (m : M A) (k : A → M B) :
  sends P a m →
  (∀ st x st1, m st = (Ret x, st1) → sends P b (k x)) →
  sends P (a + b) (bind m k).
Proof.
  intros Hm Hk st. destruct (Hm st) as (rs & Hl & HP & E).
  unfold bind. destruct (m st) as [[x|e|] st1] eqn:Hrun; cbn [snd] in *.
  - destruct (Hk st x st1 Hrun st1) as (rs' & Hl' & HP' & E').
    exists (rs ++ rs'). rewrite E', E. cbn. rewrite (assoc_L (++)), length_app.
    split_and!; [lia|by apply Forall_app|done].
  - exists rs. split_and!; [lia|done..].
  - exists rs. split_and!; [lia|done..].
Qed.

Lemma sends_bind (P : request → Prop) (a b : nat) {A B} (m : M A) (k : A → M B) :
  sends P a m → (∀ x, sends P b (k x)) → sends P (a + b) (bind m k).
Proof. intros Hm Hk. apply sends_bind_dep; auto. Qed.

Lemma sends_lift (P : request → Prop) {A} (o : outcome A) : sends P 0 (lift o).
Proof. by apply sends_pure. Qed.

Lemma sends_ret (P : request → Prop) {A} (a : A) : sends P 0 (ret a).
Proof. by apply sends_pure. Qed.

(** A guarded call is one timed request, or none without the key. *)
Lemma sends_guarded {T} (url : string) (params : string → list (string * value))
    (parse : value → outcome T) (fallback : T) :
  sends timed 1
    (api_key <- get_api_key w ;;
     try_except (data <- fetch_json w url (params api_key) ;; lift (parse data))
                is_RequestException (fun _ => ret fallback)).
Proof.
  intros st. destruct (get_api_key_cases w st) as [(k & Hk & Hne & Hrun)|Hrun].
  - rewrite (bind_ret_step _ _ _ _ _ Hrun), try_fetch. cbn zeta. cbn [snd].
    exists [Request url (params k) (Some 10)]. split_and!; [done| |done].
    by repeat constructor.
  - rewrite (bind_raise_step _ _ _ _ _ Hrun). exists []. cbn.
    rewrite app_nil_r. split_and!; [lia|done|by destruct st].
Qed.

Lemma sends_get_movie_details (movie_id : value) :
  sends timed 1 (get_movie_details w movie_id).
Proof. apply (sends_guarded _ movie_params). Qed.

Lemma sends_get_movie_credits (movie_id : value) :
  sends timed 1 (get_movie_credits w movie_id).
Proof. apply (sends_guarded _ movie_params). Qed.

Lemma sends_get_movie_videos (movie_id : value) :
  sends timed 1 (get_movie_videos w movie_id).
Proof. apply (sends_guarded _ movie_params). Qed.

Lemma sends_get_director (movie_id : value) :
  sends timed 1 (get_director w movie_id).
Proof. apply (sends_guarded _ movie_params). Qed.

Lemma sends_search_movies (query page : value) :
  sends timed 1 (search_movies w query page).
Proof.
  apply (sends_guarded _
           (λ k, [("api_key", VStr k); ("query", query); ("page", page);
                  ("include_adult", VBool false); ("language", VStr "en-US")])).
Qed.

(** X1. Whatever the catalog answers, [get_full_movie_info] sends at most
    three requests, each with the ten-second timeout, and changes nothing
    else: neither collection, nor the session. *)
Theorem get_full_movie_info_sends (movie_id : value) :
  sends timed 3 (get_full_movie_info w movie_id).
Proof.
  unfold get_full_movie_info.
  apply (sends_bind timed 1 2); [apply sends_get_movie_details|].
  intros [m|]; [|apply (sends_weaken _ 0); [lia|apply sends_ret]].
  apply (sends_bind timed 1 1); [apply sends_get_movie_credits|]. intros cast.
  apply (sends_bind timed 1 0); [apply sends_get_movie_videos|]. intros videos.
  apply (sends_bind timed 0 0); [apply sends_lift|]. intros trailer.
  apply sends_ret.
Qed.

(** X2. Without the API key in the environment, or with an empty one,
    every call of the client raises [ValueError] before anything is sent,
    and so do the aggregate and the home view: the state is left as it
    was. *)
Theorem no_key_no_request (movie_id query page : value) (st : state) :
  environ_TMDB_API_KEY w = None ∨ environ_TMDB_API_KEY w = Some "" →
  search_movies w query page st = (Raise ValueError, st)
  ∧ get_movie_details w movie_id st = (Raise ValueError, st)
  ∧ get_movie_credits w movie_id st = (Raise ValueError, st)
  ∧ get_movie_videos w movie_id st = (Raise ValueError, st)
  ∧ get_director w movie_id st = (Raise ValueError, st)
  ∧ get_featured_indian_movies w 12 st = (Raise ValueError, st)
  ∧ get_full_movie_info w movie_id st = (Raise ValueError, st)
  ∧ routes.home w st = (Raise ValueError, st)
  ∧ routes.fetch_featured_movies w st = (Raise ValueError, st).
Proof.
  intros Hkey.
  assert (Hrun : get_api_key w st = (Raise ValueError, st)).
  { unfold get_api_key. by destruct Hkey as [-> | ->]. }
  assert (Hd : get_movie_details w movie_id st = (Raise ValueError, st)).
  { unfold get_movie_details. by rewrite (bind_raise_step _ _ _ _ _ Hrun). }
  assert (Hf : get_featured_indian_movies w 12 st = (Raise ValueError, st)).
  { unfold get_featured_indian_movies. by rewrite (bind_raise_step _ _ _ _ _ Hrun). }
  split_and!; try done.
  - unfold search_movies. by rewrite (bind_raise_step _ _ _ _ _ Hrun).
  - unfold get_movie_credits. by rewrite (bind_raise_step _ _ _ _ _ Hrun).
  - unfold get_movie_videos. by rewrite (bind_raise_step _ _ _ _ _ Hrun).
  - unfold get_director. by rewrite (bind_raise_step _ _ _ _ _ Hrun).
  - unfold get_full_movie_info. by rewrite (bind_raise_step _ _ _ _ _ Hd).
  - unfold routes.home. by rewrite (bind_raise_step _ _ _ _ _ Hf).
  - unfold routes.fetch_featured_movies. by rewrite (bind_raise_step _ _ _ _ _ Hrun).
Qed.
(** X3. When the answer to a timed request is no usable one, no answer,
    an HTTP error status or a body that is not JSON, each of the five
    guarded calls returns its empty or absent result after that single
    request, and the aggregate is absent after the details request
    alone. *)
Theorem client_calls_degrade (k : string) (movie_id query page : value) (st : state) :
  environ_TMDB_API_KEY w = Some k → k ≠ "" →
  (∀ r, timed r → failed (network w (net_log st) r) = true) →
  search_movies w query page st
  = (Ret (SearchResult [] (VInt 1) (VInt 1) (VInt 0)),
     sent st (Request (TMDB_BASE_URL +:+ "/search/movie")
                      [("api_key", VStr k); ("query", query); ("page", page);
                       ("include_adult", VBool false); ("language", VStr "en-US")]
                      (Some 10)))
  ∧ get_movie_details w movie_id st
    = (Ret None, sent st (Request (details_url w movie_id) (movie_params k) (Some 10)))
  ∧ get_movie_credits w movie_id st
    = (Ret [], sent st (Request (credits_url w movie_id) (movie_params k) (Some 10)))
  ∧ get_movie_videos w movie_id st
    = (Ret [], sent st (Request (videos_url w movie_id) (movie_params k) (Some 10)))
  ∧ get_director w movie_id st
    = (Ret (VStr ""),
       sent st (Request (credits_url w movie_id) (movie_params k) (Some 10)))
  ∧ get_full_movie_info w movie_id st
    = (Ret None, sent st (Request (details_url w movie_id) (movie_params k) (Some 10))).
Proof.
  intros Hk Hne Hnet.
  assert (Hd : get_movie_details w movie_id st
               = (Ret None,
                  sent st (Request (details_url w movie_id) (movie_params k) (Some 10)))).
  { unfold get_movie_details.
    rewrite (bind_ret_step _ _ _ _ _ (get_api_key_set w k Hk Hne st)).
    by rewrite (try_fetch_failed w) by (by apply Hnet). }
  split_and!; [| done | | | |].
  - unfold search_movies.
    rewrite (bind_ret_step _ _ _ _ _ (get_api_key_set w k Hk Hne st)).
    by rewrite (try_fetch_failed w) by (by apply Hnet).
  - unfold get_movie_credits.
    rewrite (bind_ret_step _ _ _ _ _ (get_api_key_set w k Hk Hne st)).
    by rewrite (try_fetch_failed w) by (by apply Hnet).
  - unfold get_movie_videos.
    rewrite (bind_ret_step _ _ _ _ _ (get_api_key_set w k Hk Hne st)).
    by rewrite (try_fetch_failed w) by (by apply Hnet).
  - unfold get_director.
    rewrite (bind_ret_step _ _ _ _ _ (get_api_key_set w k Hk Hne st)).
    by rewrite (try_fetch_failed w) by (by apply Hnet).
  - unfold get_full_movie_info. by rewrite (bind_ret_step _ _ _ _ _ Hd).
Qed.
End sending.

Section sending_runs.
Import tmdb examples more_examples.

Lemma no_key_no_request_witness :
  routes.home keyless fresh = (Raise ValueError, fresh)
  ∧ get_full_movie_info keyless (VInt 27205) fresh = (Raise ValueError, fresh).
Proof.
  assert (H := no_key_no_request keyless (VInt 27205) VNone VNone fresh
                 (or_introl eq_refl)).
  split; apply H.
Defined.

Lemma client_calls_degrade_witness :
  get_movie_credits offline (VInt 27205) fresh
  = (Ret [], sent fresh (Request (credits_url offline (VInt 27205))
                                 (movie_params "key") (Some 10)))
  ∧ fst (get_director offline (VInt 27205) fresh) = Ret (VStr "").
Proof.
  assert (Hk : "key" ≠ "") by done.
  assert (H := client_calls_degrade offline "key" (VInt 27205) (VStr "inception")
                 (VInt 1) fresh eq_refl Hk (λ r _, eq_refl)).
  destruct H as (_ & _ & Hc & _ & Hd & _). split; [exact Hc|by rewrite Hd].
Defined.
End sending_runs.

(** ** Cast, crew and trailer *)

Section credits.
Import tmdb.
Context (w : world).

Lemma omap_length {A B} (f : A → outcome B) (l : list A) (l' : list B) :
  omap f l = Ret l' → length l' = length l.
Proof.
  revert l'. induction l as [|x r IH]; intros l'; cbn.
  - by intros [= <-].
  - destruct (f x) as [y|e|]; cbn; try done.
    destruct (omap f r) as [ys|e|]; cbn; try done.
    intros [= <-]. cbn. by rewrite (IH ys).
Qed.

Lemma chars_length (s : string) : length (chars s) = String.length s.
Proof. induction s as [|c r IH]; cbn; [done|]. by rewrite IH. Qed.

Lemma substring_length_le (n : nat) (s : string) :
  (String.length (String.substring 0 n s) ≤ n)%nat.
Proof.
  revert s. induction n as [|n IH]; intros [|c r]; cbn; try lia.
  specialize (IH r). lia.
Qed.

(** Iterating over a slice visits no more items than the slice asks for. *)
Lemma slice_iterate_length (n : nat) (v top : value) (items : list value) :
  slice_to n v = Ret top → iterate top = Ret items → (length items ≤ n)%nat.
Proof.
  destruct v; cbn; try done; intros [= <-]; cbn; intros [= <-].
  - rewrite chars_length. apply substring_length_le.
  - rewrite length_take. lia.
Qed.

Lemma credits_of_json_length (data : value) (cast : list TMDBCastMember.t) :
  credits_of_json data = Ret cast → (length cast ≤ 10)%nat.
Proof.
  unfold credits_of_json.
  destruct (dict_get data "cast" (VList [])) as [c|e|]; cbn [obind]; try done.
  destruct (slice_to 10 c) as [top|e|] eqn:Hs; cbn [obind]; try done.
  destruct (iterate top) as [items|e|] eqn:Hi; cbn [obind]; try done.
  intros H%omap_length. rewrite H. by eapply slice_iterate_length.
Qed.

(** X4. [get_movie_credits] never returns more than ten cast members,
    whatever the catalog sends. *)
Theorem get_movie_credits_top_ten (movie_id : value) (st st' : state)
    (cast : list TMDBCastMember.t) :
  get_movie_credits w movie_id st = (Ret cast, st') → (length cast ≤ 10)%nat.
Proof.
  unfold get_movie_credits.
  destruct (get_api_key_cases w st) as [(k & _ & _ & Hrun)|Hrun].
  2:{ by rewrite (bind_raise_step _ _ _ _ _ Hrun). }
  rewrite (bind_ret_step _ _ _ _ _ Hrun), try_fetch. cbn zeta.
  destruct (network w (net_log st) _) as [code [v|]| |];
    try (intros [= <- _]; cbn; lia).
  destruct ((400 <=? code) && (code <? 600))%Z; [intros [= <- _]; cbn; lia|].
  destruct (credits_of_json v) as [l|e|] eqn:E.
  - intros [= <- _]. by eapply credits_of_json_length.
  - destruct (is_RequestException e); [intros [= <- _]; cbn; lia|done].
  - done.
Qed.

(** X5. The director is the name of the first crew entry whose job is
    "Director", the empty string when that entry has no name, and the
    empty string when no entry has that job. *)
Theorem find_director_first (before after : list value) (d : list (string * value)) :
  Forall not_director before →
  (assoc "job" d = Some (VStr "Director") →
     find_director (before ++ VDict d :: after)
     = Ret (default (VStr "") (assoc "name" d)))
  ∧ find_director before = Ret (VStr "").
Proof.
  intros Hb. split.
  - intros Hjob. induction Hb as [|b r (bd & -> & Hnot) _ IH]; cbn.
    + rewrite Hjob. cbn. by destruct (assoc "name" d).
    + destruct (assoc "job" bd) as [j|]; cbn in Hnot |- *; [by rewrite Hnot|done].
  - induction Hb as [|b r (bd & -> & Hnot) _ IH]; cbn; [done|].
    destruct (assoc "job" bd) as [j|]; cbn in Hnot |- *; [by rewrite Hnot|done].
Qed.

(** X6. With the key set, [get_featured_indian_movies] never raises: it
    returns a value unless the catalog stays silent, in which case it
    does not return at all.  It returns the empty list when the catalog
    cannot be reached, when the body is not JSON, and when the JSON
    object has no results, whatever the status code: the status is never
    looked at. *)
Theorem get_featured_never_raises (k : string) (limit : nat) (st : state) :
  environ_TMDB_API_KEY w = Some k → k ≠ "" →
  let answer := network w (net_log st) (discover_request k) in
  (∀ e, fst (get_featured_indian_movies w limit st) ≠ Raise e)
  ∧ (answer ≠ Silent → ∃ v, fst (get_featured_indian_movies w limit st) = Ret v)
  ∧ (answer = Unreachable ∨ (∃ code, answer = Reply code None)
     ∨ (∃ code d, answer = Reply code (Some (VDict d)) ∧ assoc "results" d = None) →
     fst (get_featured_indian_movies w limit st) = Ret (VList [])).
Proof.
  intros Hk Hne answer. subst answer. unfold get_featured_indian_movies.
  rewrite (bind_ret_step _ _ _ _ _ (get_api_key_set w k Hk Hne st)).
  unfold try_except, bind, requests_get, lift, ret, json. fold (discover_request k).
  destruct (network w (net_log st) (discover_request k)) as [code [v|]| |]; cbn.
  - destruct (dict_get v "results" (VList [])) as [ms|e|] eqn:Hget; cbn.
    + destruct (slice_to limit ms) as [r|e|] eqn:E; cbn.
      * split_and!; [done|eauto|].
        intros [?|[(? & ?)|(c & d & [= -> ->] & Hd)]]; try done.
        cbn in Hget. rewrite Hd in Hget. injection Hget as <-.
        cbn in E. rewrite take_nil in E. by injection E as <-.
      * split_and!; [done|eauto|done].
      * by destruct ms.
    + split_and!; [done|eauto|done].
    + by destruct v.
  - split_and!; [done|eauto|done].
  - split_and!; [done|eauto|done].
  - split_and!; [done|done|].
    intros [?|[(? & ?)|(c & d & ? & _)]]; done.
Qed.
End credits.

Section credits_runs.
Import tmdb examples more_examples.

Lemma get_movie_credits_top_ten_witness :
  ∃ cast st', get_movie_credits crowded (VInt 1) fresh = (Ret cast, st')
              ∧ (length cast ≤ 10)%nat ∧ (10 ≤ length cast)%nat.
Proof.
  destruct (get_movie_credits crowded (VInt 1) fresh) as [[cast| |] st'] eqn:Hrun;
    try (vm_compute in Hrun; discriminate).
  exists cast, st'. split; [done|]. split.
  - exact (get_movie_credits_top_ten crowded (VInt 1) fresh st' cast Hrun).
  - vm_compute in Hrun. injection Hrun as <- _. vm_compute. lia.
Defined.

Lemma find_director_first_witness :
  get_director online (VInt 27205) fresh
  = (Ret (VStr "Christopher Nolan"),
     sent fresh (Request "https://api.themoviedb.org/3/movie/27205/credits"
                         (movie_params "key") (Some 10)))
  ∧ find_director [VDict [("job", VStr "Producer"); ("name", VStr "Emma Thomas")];
                   VDict [("job", VStr "Director"); ("name", VStr "Christopher Nolan")]]
    = Ret (VStr "Christopher Nolan").
Proof.
  split; [vm_compute; reflexivity|].
  apply (proj1 (find_director_first
                  [VDict [("job", VStr "Producer"); ("name", VStr "Emma Thomas")]] []
                  [("job", VStr "Director"); ("name", VStr "Christopher Nolan")]
                  ltac:(repeat constructor; eexists; split; [reflexivity|done]))).
  reflexivity.
Defined.

Lemma get_featured_never_raises_witness :
  fst (get_featured_indian_movies offline 12 fresh) = Ret (VList []).
Proof.
  assert (Hk : "key" ≠ "") by done.
  apply (proj2 (proj2 (get_featured_never_raises offline "key" 12 fresh eq_refl Hk))).
  by left.
Defined.
End credits_runs.

(** ** Sorting again, and the trailer chosen *)

Section trailer_choice.
Import tmdb.
Context (w : world).

Lemma teaser_not_trailer (v : TMDBVideo.t) : is_teaser v = true → is_trailer v = false.
Proof.
  intros H. destruct (is_trailer v) eqn:T; [|done].
  by rewrite (trailer_not_teaser v T) in H.
Qed.

Lemma other_not_trailer (v : TMDBVideo.t) : is_other v = true → is_trailer v = false.
Proof. unfold is_other. by intros [H%negb_true_iff _]%andb_prop. Qed.

Lemma other_not_teaser (v : TMDBVideo.t) : is_other v = true → is_teaser v = false.
Proof. unfold is_other. by intros [_ H%negb_true_iff]%andb_prop. Qed.

Lemma filter_same {A} (f : A → bool) (l : list A) :
  List.filter f (List.filter f l) = List.filter f l.
Proof. by apply filter_filter_all. Qed.

(** X7. Sorting the videos a second time changes nothing, and the sort
    neither drops nor adds an entry. *)
Theorem sort_videos_idempotent (l : list TMDBVideo.t) :
  sort_videos (sort_videos l) = sort_videos l
  ∧ length (sort_videos l) = length l.
Proof.
  split.
  - rewrite (sort_videos_groups (sort_videos l)), (sort_videos_groups l).
    rewrite !List.filter_app, !filter_same.
    rewrite (filter_filter_none is_trailer is_teaser) by apply trailer_not_teaser.
    rewrite (filter_filter_none is_trailer is_other).
    2:{ intros y H. unfold is_other. by rewrite H. }
    rewrite (filter_filter_none is_teaser is_trailer) by apply teaser_not_trailer.
    rewrite (filter_filter_none is_teaser is_other).
    2:{ intros y H. unfold is_other. by rewrite H, andb_false_r. }
    rewrite (filter_filter_none is_other is_trailer) by apply other_not_trailer.
    rewrite (filter_filter_none is_other is_teaser) by apply other_not_teaser.
    by rewrite !app_nil_r.
  - apply Permutation_length, list_sort_perm.
Qed.

Lemma youtube_url_site_text (v : TMDBVideo.t) :
  site_is_text v → ∃ b, TMDBVideo.site_is_youtube v = Ret b.
Proof. intros [s Hs]. unfold TMDBVideo.site_is_youtube. rewrite Hs. eauto. Qed.

(** Among videos whose sites are strings, the loop finds the first one
    on the video platform and does not look past it. *)
Lemma first_trailer_app (front back : list TMDBVideo.t) (v : TMDBVideo.t) :
  Forall site_is_text front → In v front →
  TMDBVideo.site_is_youtube v = Ret true →
  ∃ t, In t front ∧ TMDBVideo.site_is_youtube t = Ret true
       ∧ first_trailer w (front ++ back) = Ret (Some t).
Proof.
  induction 1 as [|x r Hx _ IH]; [done|]. intros Hin Hv.
  destruct (youtube_url_site_text x Hx) as [[|] Hb].
  - exists x. split_and!; [by left|done|].
    cbn. unfold TMDBVideo.youtube_url. rewrite Hb. done.
  - destruct Hin as [->|Hin]; [congruence|].
    destruct (IH Hin Hv) as (t & Ht & Hy & Hrun).
    exists t. split_and!; [by right|done|].
    cbn. unfold TMDBVideo.youtube_url at 1. rewrite Hb. cbn. done.
Qed.

(** X8. When some video of type "Trailer" is on the video platform, and
    the sites are strings, the trailer [get_full_movie_info] selects from
    the sorted list is of type "Trailer": a teaser or a clip on the
    platform never wins over it, wherever it stood in the answer. *)
Theorem trailer_preferred (videos : list TMDBVideo.t) (v : TMDBVideo.t) :
  Forall site_is_text videos → In v videos →
  is_trailer v = true → TMDBVideo.site_is_youtube v = Ret true →
  ∃ t, first_trailer w (sort_videos videos) = Ret (Some t)
       ∧ In t videos ∧ is_trailer t = true
       ∧ TMDBVideo.site_is_youtube t = Ret true.
Proof.
  intros Hsites Hin Ht Hy. rewrite sort_videos_groups.
  destruct (first_trailer_app (List.filter is_trailer videos)
              (List.filter is_teaser videos ++ List.filter is_other videos) v)
    as (t & Hin' & Hy' & Hrun).
  - apply Forall_forall. intros x Hx%list_elem_of_In%filter_In.
    rewrite Forall_forall in Hsites. apply Hsites, list_elem_of_In. tauto.
  - by apply filter_In.
  - done.
  - apply filter_In in Hin' as [? ?]. eauto 10.
Qed.
End trailer_choice.

Section trailer_choice_runs.
Import tmdb examples.

Lemma trailer_preferred_witness :
  first_trailer online (sort_videos some_videos) = Ret (Some (video "t2" "YouTube" "Trailer")).
Proof.
  destruct (trailer_preferred online some_videos (video "t2" "YouTube" "Trailer"))
    as (t & Hrun & _).
  - repeat constructor; eexists; reflexivity.
  - vm_compute. tauto.
  - reflexivity.
  - reflexivity.
  - rewrite Hrun. vm_compute in Hrun. injection Hrun as <-. reflexivity.
Defined.
End trailer_choice_runs.

(** ** Logging in, logging out, registering *)

Section accounts.
Import flask.
Context (w : world).

Lemma find_one_matches (c : list doc) (field : string) (v : value) (d : doc) :
  db.find_one c field v = Some d → d !! field = Some v ∧ In d c.
Proof.
  unfold db.find_one. intros H. apply find_some in H as [Hin Hm].
  unfold db.matches in Hm. by apply bool_decide_eq_true in Hm.
Qed.


Lemma user_new_asdict (u : models.User.t) :
  models.User.new (Some (models.User.asdict u)) = Ret u.
Proof. destruct u. vm_compute. reflexivity. Qed.

Lemma user_new_email (d : doc) (u : models.User.t) (e : value) :
  models.User.new (Some d) = Ret u → d !! "email" = Some e → models.User.email u = e.
Proof.
  unfold models.User.new. intros H He. rewrite He in H.
  destruct (bool_decide _); [|done].
  destruct (d !! "_id"), (d !! "password"); try done. by injection H as <-.
Qed.

(** A login attempt that reaches the password check. *)
Lemma login_checked (email password : string) (st : state) (d : doc)
    (u : models.User.t) (ok : bool) :
  anonymous st →
  db.find_one (db_user st) "email" (VStr email) = Some d →
  models.User.new (Some d) = Ret u →
  pbkdf2_sha256_verify w password (models.User.password u) = Ret ok →
  routes.login w true email password st
  = if ok
    then (session_set "user_id" (models.User._id u) ;;;
          session_set "email" (models.User.email u) ;;;
          to <- url_for "home" [] ;; ret (redirect to)) st
    else (flash "Login credins=tials not correct" "danger" ;;;
          ret (render_template "login.html" ctx_form)) st.
Proof.
  intros Hanon Hd Hu Hv. unfold routes.login.
  unfold bind at 1. unfold session_get. unfold anonymous in Hanon. rewrite Hanon.
  unfold bind at 1. unfold user_find_one. rewrite Hd.
  unfold routes.found. rewrite (bool_decide_eq_false_2 _ (user_new_nonempty d u Hu)).
  cbn [negb]. unfold bind at 1, lift. rewrite Hu.
  unfold bind at 1. rewrite Hv. by destruct ok.
Qed.

(** X9. A login from an anonymous session with a password that verifies
    binds the identity and the email of the user found to the session,
    changes nothing else, and sends the client home; from then on the
    guard of the protected views lets requests through. *)
Theorem login_binds_identity (email password : string) (st : state) (d : doc)
    (u : models.User.t) :
  anonymous st →
  db.find_one (db_user st) "email" (VStr email) = Some d →
  models.User.new (Some d) = Ret u →
  pbkdf2_sha256_verify w password (models.User.password u) = Ret true →
  let st' := with_session st (<["email" := VStr email]>
                                (<["user_id" := models.User._id u]> (session st))) in
  routes.login w true email password st = (Ret (redirect (Url "home" [])), st')
  ∧ (∀ route, routes.login_required route st' = route st')
  ∧ (∀ route, pages.login_required route st' = route st').
Proof.
  intros Hanon Hd Hu Hv st'.
  assert (He : models.User.email u = VStr email).
  { apply (user_new_email d); [done|]. by apply find_one_matches in Hd as [? _]. }
  split_and!.
  - rewrite (login_checked email password st d u true) by done. by rewrite He.
  - intros route. apply login_required_pass. subst st'. cbn.
    by rewrite lookup_insert_eq.
  - intros route. unfold pages.login_required, bind, session_get. subst st'. cbn.
    by rewrite lookup_insert_eq.
Qed.

(** X10. After a logout, from whatever state, the session holds the theme
    and nothing else, the collections are as they were, and every
    protected view answers with the redirect to the login page without
    running. *)
Theorem logout_locks_views (st : state) :
  let st' := snd (routes.logout st) in
  session st' = {["theme" := theme_of st]}
  ∧ db_user st' = db_user st ∧ db_movie st' = db_movie st
  ∧ anonymous st'
  ∧ (∀ route, routes.login_required route st' = (Ret (redirect (Url "login" [])), st'))
  ∧ (∀ route, pages.login_required route st'
              = (Ret (pages.basic (redirect (Url "login" []))), st')).
Proof.
  intros st'. subst st'. rewrite logout_run. cbn [snd].
  split_and!; done.
Qed.

(** What a valid registration from an anonymous session does. *)
Lemma register_run (email password : string) (st : state) :
  anonymous st →
  flashes_ok (session st) →
  db.find_one (db_user st) "_id" (VStr (uuid4_hex w (entropy st))) = None →
  routes.register w true email password st
  = (Ret (redirect (Url "login" [])),
     State (net_log st)
           (db_user st
            ++ [models.User.asdict
                  (models.User.Make (VStr (uuid4_hex w (entropy st))) (VStr email)
                     (VStr (pbkdf2_sha256_hash w (S (entropy st)) password))
                     (VStr "") (VStr "") (VStr "") (VList []))])
           (db_movie st)
           (flashed (session st) "success" "User registered successfully")
           (S (S (entropy st)))).
Proof.
  intros Hanon Hfl Hfresh. unfold routes.register.
  unfold bind at 1. unfold session_get. unfold anonymous in Hanon. rewrite Hanon.
  unfold bind at 1. unfold uuid4. unfold bind at 1. unfold pbkdf2_hash. cbn [entropy].
  unfold bind at 1. unfold user_insert_one, db.insert_one. cbn [db_user].
  set (user := models.User.Make _ _ _ _ _ _ _).
  assert (Hid : models.User.asdict user !! "_id"
                = Some (VStr (uuid4_hex w (entropy st)))).
  { unfold models.User.asdict. by rewrite lookup_insert_eq. }
  rewrite Hid, Hfresh.
  unfold bind at 1. rewrite flash_run by done. done.
Qed.

Section after_register.
Context (email password : string) (st : state).
Hypothesis was_anonymous : anonymous st.
Hypothesis flashes : flashes_ok (session st).
Hypothesis fresh_id :
  db.find_one (db_user st) "_id" (VStr (uuid4_hex w (entropy st))) = None.

(** X11. Registering under an email nobody has and then logging in with
    the same password, from the same anonymous session, succeeds when
    the hash primitive verifies what it produced: the session is bound
    to the identity drawn at registration. *)
Theorem register_then_login :
  db.find_one (db_user st) "email" (VStr email) = None →
  pbkdf2_sha256_verify w password
    (VStr (pbkdf2_sha256_hash w (S (entropy st)) password)) = Ret true →
  let st1 := snd (routes.register w true email password st) in
  let st2 := snd (routes.login w true email password st1) in
  fst (routes.login w true email password st1) = Ret (redirect (Url "home" []))
  ∧ session st2 !! "user_id" = Some (VStr (uuid4_hex w (entropy st)))
  ∧ session st2 !! "email" = Some (VStr email).
Proof.
  intros Hnew Hv st1 st2. subst st2 st1. rewrite register_run by done. cbn [snd].
  set (user := models.User.Make _ _ _ _ _ _ _).
  set (st1 := State _ _ _ _ _).
  assert (Hanon : anonymous st1).
  { unfold anonymous, st1. cbn. by rewrite flashed_other. }
  assert (Hd : db.find_one (db_user st1) "email" (VStr email)
               = Some (models.User.asdict user)).
  { unfold st1. cbn. apply find_one_app_fresh; [done|].
    unfold models.User.asdict. rewrite lookup_insert_ne by done.
    by rewrite lookup_insert_eq. }
  rewrite (login_checked email password st1 _ user true Hanon Hd
             (user_new_asdict user) Hv).
  cbn. split_and!; [done| |by rewrite lookup_insert_eq].
  rewrite lookup_insert_ne by done. by rewrite lookup_insert_eq.
Qed.

End after_register.
End accounts.

Section accounts_runs.
Import flask examples.

Lemma login_binds_identity_witness :
  fst (routes.login online true "ann@example.org" "s3cret" visitor)
  = Ret (redirect (Url "home" []))
  ∧ session (snd (routes.login online true "ann@example.org" "s3cret" visitor))
    !! "user_id" = Some (VStr "u1").
Proof.
  assert (Ha : anonymous visitor) by reflexivity.
  edestruct (login_binds_identity online "ann@example.org" "s3cret" visitor ann)
    as (Hrun & _); [done|reflexivity|vm_compute; reflexivity|reflexivity|].
  rewrite Hrun. split; [reflexivity|]. cbn.
  rewrite lookup_insert_ne by done. by rewrite lookup_insert_eq.
Defined.

Lemma register_then_login_witness :
  fst (routes.login online true "bob@example.org" "pw"
         (snd (routes.register online true "bob@example.org" "pw" visitor)))
  = Ret (redirect (Url "home" [])).
Proof.
  assert (Ha : anonymous visitor) by reflexivity.
  assert (Hf : flashes_ok (session visitor)) by exact I.
  apply (register_then_login online "bob@example.org" "pw" visitor Ha Hf).
  - vm_compute. reflexivity.
  - reflexivity.
  - vm_compute. reflexivity.
Defined.

End accounts_runs.

(** ** Stored movies: rating, watching, adding *)

Section stored.
Import flask.
Context (w : world).

Lemma movie_new_elim (d : doc) (m : models.Movie.t) :
  models.Movie.new (Some d) = Ret m →
  movie_keys d
  ∧ d !! "_id" = Some (models.Movie._id m)
  ∧ d !! "title" = Some (models.Movie.title m)
  ∧ d !! "director" = Some (models.Movie.director m)
  ∧ d !! "year" = Some (models.Movie.year m)
  ∧ m = models.Movie.Make (models.Movie._id m) (models.Movie.title m)
          (models.Movie.director m) (models.Movie.year m)
          (default (VList []) (d !! "cast")) (default (VList []) (d !! "series"))
          (default VNone (d !! "last_watched")) (default (VInt 0) (d !! "rating"))
          (default (VList []) (d !! "tags")) (default VNone (d !! "description"))
          (default VNone (d !! "video_link")).
Proof.
  unfold models.Movie.new, movie_keys.
  destruct (bool_decide _) eqn:Hk; [|done]. apply bool_decide_eq_true in Hk.
  destruct (d !! "_id"), (d !! "title"), (d !! "director"), (d !! "year"); try done.
  by intros [= <-].
Qed.

Lemma movie_new_intro (d : doc) (i t dr y : value) :
  movie_keys d →
  d !! "_id" = Some i → d !! "title" = Some t →
  d !! "director" = Some dr → d !! "year" = Some y →
  models.Movie.new (Some d)
  = Ret (models.Movie.Make i t dr y
           (default (VList []) (d !! "cast")) (default (VList []) (d !! "series"))
           (default VNone (d !! "last_watched")) (default (VInt 0) (d !! "rating"))
           (default (VList []) (d !! "tags")) (default VNone (d !! "description"))
           (default VNone (d !! "video_link"))).
Proof.
  unfold models.Movie.new, movie_keys. intros Hk -> -> -> ->.
  by rewrite bool_decide_eq_true_2.
Qed.

Lemma movie_keys_insert (d : doc) (k : string) (v : value) :
  movie_keys d → k ∈ models.Movie.fields → movie_keys (<[k := v]> d).
Proof. intros Hd Hk. by apply map_Forall_insert_2. Qed.

(** [update_one] on a record that is there: the first match is
    rewritten, and it is what the same query finds afterwards. *)
Lemma update_first_found (field : string) (v : value) (f : doc → outcome doc)
    (c : list doc) (d d' : doc) :
  db.find_one c field v = Some d → f d = Ret d' → d' !! field = Some v →
  ∃ c', db.update_first field v f c = Ret c'
        ∧ db.find_one c' field v = Some d'
        ∧ length c' = length c.
Proof.
  unfold db.find_one. intros Hfind Hf Hd'.
  induction c as [|x r IH]; [done|]. cbn in *.
  destruct (db.matches field v x) eqn:Hm.
  - injection Hfind as ->. rewrite Hf. cbn. eexists. split_and!; [done| |done].
    cbn. unfold db.matches at 1. by rewrite bool_decide_eq_true_2.
  - destruct (IH Hfind) as (c' & -> & Hc' & Hl). cbn.
    eexists. split_and!; [done| |cbn; congruence]. cbn. by rewrite Hm.
Qed.

Section one_movie.
Context (_id : string) (st : state) (d : doc) (m : models.Movie.t).
Hypothesis is_logged : logged st.
Hypothesis stored : db.find_one (db_movie st) "_id" (VStr _id) = Some d.
Hypothesis well_formed : models.Movie.new (Some d) = Ret m.



(** X14. Marking a stored movie as watched stores the reading of the
    clock as its last-watched time: the details page then shows the
    record with that time and nothing else changed. *)
Theorem watch_then_view :
  let st' := snd (routes.watch_today w _id st) in
  fst (routes.watch_today w _id st)
  = Ret (redirect (Url "movie" [("_id", VStr _id)]))
  ∧ routes.movie _id st'
    = (Ret (render_template "movie_details.html"
              (ctx_movie (with_last_watched m (datetime_today w (entropy st))))),
       st')
  ∧ length (db_movie st') = length (db_movie st)
  ∧ db_user st' = db_user st ∧ session st' = session st.
Proof.
  intros st'. subst st'. set (now := datetime_today w (entropy st)).
  destruct (movie_new_elim d m well_formed) as (Hk & Hid & Ht & Hd & Hy & Hm).
  destruct (update_first_found "_id" (VStr _id) (db.set_field "last_watched" now)
              (db_movie st) d (<["last_watched" := now]> d) stored eq_refl)
    as (c' & Hup & Hfind & Hlen).
  { rewrite lookup_insert_ne by done. by destruct (find_one_matches _ _ _ _ stored). }
  assert (Hrun : routes.watch_today w _id st
                 = (Ret (redirect (Url "movie" [("_id", VStr _id)])),
                    State (net_log st) (db_user st) c' (session st) (S (entropy st)))).
  { unfold routes.watch_today. rewrite login_required_pass by done.
    unfold bind at 1. unfold today at 1. fold now.
    unfold bind at 1. unfold movie_update_one. cbn [db_movie]. rewrite Hup.
    unfold bind at 1. by rewrite url_for_movie. }
  rewrite Hrun. cbn [fst snd].
  split_and!; [done| |done|done|done].
  unfold routes.movie, bind, movie_find_one. cbn [db_movie with_db_movie].
  rewrite Hfind. unfold lift.
  rewrite (movie_new_intro _ (models.Movie._id m) (models.Movie.title m)
             (models.Movie.director m) (models.Movie.year m)).
  - rewrite lookup_insert_eq, !lookup_insert_ne by done.
    unfold with_rating, with_last_watched, ret. rewrite Hm. cbn. done.
  - apply movie_keys_insert; [done|]. unfold models.Movie.fields. set_solver.
  - by rewrite lookup_insert_ne.
  - by rewrite lookup_insert_ne.
  - by rewrite lookup_insert_ne.
  - by rewrite lookup_insert_ne.
Qed.
End one_movie.
End stored.

Section stored_runs.
Import flask examples library.


Lemma watch_then_view_witness :
  routes.movie "m1" (snd (routes.watch_today online "m1" shelf))
  = (Ret (render_template "movie_details.html"
            (ctx_movie (with_last_watched inception (VInt 0)))),
     snd (routes.watch_today online "m1" shelf)).
Proof.
  eapply (watch_then_view online "m1" shelf (models.Movie.asdict inception) inception).
  - vm_compute. done.
  - reflexivity.
  - reflexivity.
Defined.
End stored_runs.

(** ** Adding, editing and listing movies *)

Section shelves.
Import flask.
Context (w : world).

Lemma pages_login_required_pass (route : M pages.page) (st : state) :
  logged st → pages.login_required route st = route st.
Proof.
  intros H. unfold pages.login_required, bind, session_get.
  by rewrite bool_decide_eq_false_2.
Qed.




End shelves.

Section shelves_runs.
Import flask examples library.


End shelves_runs.

(** ** The watchlist page, the search page, the template context *)

Section listings.
Import flask.
Context (w : world).

Lemma omap_Forall2 {A B} (f : A → outcome B) (l : list A) :
  Forall (λ x, ∃ y, f x = Ret y) l →
  ∃ l', omap f l = Ret l' ∧ Forall2 (λ x y, f x = Ret y) l l'.
Proof.
  induction 1 as [|x r [y Hy] _ (l' & Hl' & IH)]; cbn.
  - eauto.
  - rewrite Hy, Hl'. cbn. eauto.
Qed.

Lemma new_ids_chosen (l : list doc) (ms : list models.Movie.t) (ids : list value) :
  Forall2 (λ x m, models.Movie.new (Some x) = Ret m) l ms →
  Forall (λ x, default VNone (x !! "_id") ∈ ids) l →
  Forall (λ m, models.Movie._id m ∈ ids) ms.
Proof.
  induction 1 as [|x m r ms' Hm _ IH]; [done|].
  intros Hin. inversion Hin as [|? ? Hx Hr]; subst. constructor; [|by apply IH].
  destruct (movie_new_elim x m Hm) as (_ & Hid & _). by rewrite Hid in Hx.
Qed.

(** X17. The watchlist page shows exactly the stored movies whose
    identity is in the watchlist of the user, each once and in store
    order: an identity in the watchlist without a stored movie is passed
    over, and the page leaves the state as it was. *)
Theorem index_lists_watchlist (st : state) (e : value) (d : doc)
    (u : models.User.t) (ids : list value) :
  session st !! "email" = Some e → e ≠ VNone →
  db.find_one (db_user st) "email" e = Some d →
  models.User.new (Some d) = Ret u →
  models.User.movies u = VList ids →
  Forall readable (db_movie st) →
  ∃ ms, pages.index st = (Ret (pages.index_html ms), st)
        ∧ Forall2 (λ x m, models.Movie.new (Some x) = Ret m)
                  (List.filter (λ x, bool_decide (default VNone (x !! "_id") ∈ ids))
                               (db_movie st)) ms
        ∧ Forall (λ m, models.Movie._id m ∈ ids) ms
        ∧ (length ms ≤ length (db_movie st))%nat.
Proof.
  intros He Hne Hd Hu Hids Hread.
  set (chosen := List.filter (λ x, bool_decide (default VNone (x !! "_id") ∈ ids))
                             (db_movie st)).
  assert (Hsame : pages.find_in (db_movie st) "_id" (VList ids) = Ret chosen).
  { unfold pages.find_in, chosen. f_equal.
    assert (Hall : Forall readable (db_movie st)) by done.
    induction Hall as [|x r [m Hm] _ IH]; [done|]. cbn.
    destruct (movie_new_elim x m Hm) as (_ & Hid & _). rewrite Hid. cbn.
    inversion Hread; subst. by rewrite IH. }
  destruct (omap_Forall2 (λ movie, models.Movie.new (Some movie)) chosen)
    as (ms & Hms & Hrel).
  { apply Forall_forall. intros x Hx. rewrite Forall_forall in Hread.
    apply Hread. unfold chosen in Hx.
    apply list_elem_of_In, filter_In in Hx as [Hx _]. by apply list_elem_of_In. }
  exists ms. split_and!.
  - unfold pages.index. rewrite pages_login_required_pass
      by (unfold logged; by rewrite He).
    unfold bind at 1. unfold session_item. rewrite He.
    unfold bind at 1. unfold user_find_one. rewrite Hd.
    unfold bind at 1. unfold lift at 1. rewrite Hu.
    unfold bind at 1. rewrite Hids, Hsame.
    unfold bind, lift. by rewrite Hms.
  - done.
  - assert (Hin : Forall (λ x, default VNone (x !! "_id") ∈ ids) chosen).
    { apply Forall_forall. intros x Hx. unfold chosen in Hx.
      apply list_elem_of_In, filter_In in Hx as [_ Hx].
      by apply bool_decide_eq_true in Hx. }
    by eapply new_ids_chosen.
  - rewrite <- (Forall2_length _ _ _ Hrel). unfold chosen. apply filter_length_le.
Qed.

Lemma lstrip_blank (s : string) : blank s = true → pystr.lstrip s = "".
Proof.
  induction s as [|c r IH]; cbn; [done|].
  intros [Hc Hr]%andb_prop. rewrite Hc. by apply IH.
Qed.

Lemma strip_blank (s : string) : blank s = true → pystr.strip s = "".
Proof. intros H. unfold pystr.strip. by rewrite lstrip_blank. Qed.

(** X18. A search whose query is missing or is white space only asks the
    catalog nothing: the page is rendered without results and the state
    is as it was.  Any other query is sent once, stripped of the white
    space around it, with the page number of the request. *)
Theorem search_blank_asks_nothing (q : option string) (page_no : Z) (st : state) :
  logged st →
  (blank (default "" q) = true →
     pages.search w q page_no st = (Ret (pages.search_html "" None), st))
  ∧ (∀ k, pystr.strip (default "" q) ≠ "" →
       environ_TMDB_API_KEY w = Some k → k ≠ "" →
       snd (pages.search w q page_no st)
       = sent st (Request (tmdb.TMDB_BASE_URL +:+ "/search/movie")
                          [("api_key", VStr k);
                           ("query", VStr (pystr.strip (default "" q)));
                           ("page", VInt page_no);
                           ("include_adult", VBool false);
                           ("language", VStr "en-US")]
                          (Some 10))).
Proof.
  intros Hlog. split.
  - intros Hb. unfold pages.search. rewrite pages_login_required_pass by done.
    by rewrite (strip_blank _ Hb).
  - intros k Hq Hk Hne. unfold pages.search.
    rewrite pages_login_required_pass by done.
    apply String.eqb_neq in Hq. rewrite Hq. cbn [negb].
    unfold bind at 1. unfold tmdb.search_movies.
    rewrite (bind_ret_step _ _ _ _ _ (get_api_key_set w k Hk Hne st)).
    rewrite try_fetch. cbn zeta.
    match goal with |- snd (let (o, st') := (?x, _) in _) = _ => by destruct x end.
Qed.

Lemma setdefault_lookup (k k' : string) (v : value) (d : doc) :
  pages.setdefault k v d !! k'
  = if decide (k = k') then Some (default v (d !! k)) else d !! k'.
Proof.
  unfold pages.setdefault. destruct (d !! k) as [x|] eqn:E.
  - case_decide; [by subst|done].
  - rewrite lookup_insert. by case_decide.
Qed.

(** X19. The context processor gives the templates no user and a count
    of zero for an anonymous session.  For a logged-in one it gives the
    user document with name, avatar, bio and watchlist present, filled
    in with the empty string and the empty list where the stored
    document lacks them and never overwriting what it has, and the
    length of the watchlist when that is a list; the store is not
    written. *)
Theorem inject_user_data_defaults (st : state) :
  (anonymous st → app.inject_user_data st = (Ret (None, 0), st))
  ∧ (∀ e d, session st !! "email" = Some e → truthy e = true →
       db.find_one (db_user st) "email" e = Some d →
       ∃ d' n,
         app.inject_user_data st = (Ret (Some d', n), st)
         ∧ (∀ k x, d !! k = Some x → d' !! k = Some x)
         ∧ d' !! "name" = Some (default (VStr "") (d !! "name"))
         ∧ d' !! "avatar_url" = Some (default (VStr "") (d !! "avatar_url"))
         ∧ d' !! "bio" = Some (default (VStr "") (d !! "bio"))
         ∧ d' !! "movies" = Some (default (VList []) (d !! "movies"))
         ∧ n = match d !! "movies" with
               | Some (VList l) => Z.of_nat (length l)
               | _ => 0
               end).
Proof.
  split.
  - intros Hanon. unfold app.inject_user_data, bind, session_get.
    unfold anonymous in Hanon. by rewrite Hanon.
  - intros e d He Ht Hd.
    assert (Hne : d ≠ ∅).
    { intros ->. destruct (find_one_matches _ _ _ _ Hd) as [H _].
      by rewrite lookup_empty in H. }
    eexists _, _. split_and!.
    + unfold app.inject_user_data.
      unfold bind at 1. unfold session_get. rewrite He.
      change (default VNone (Some e)) with e. rewrite Ht.
      unfold bind at 1. unfold session_item. rewrite He.
      unfold bind at 1. unfold user_find_one. rewrite Hd.
      unfold routes.found. rewrite (bool_decide_eq_false_2 _ Hne). cbn [negb].
      reflexivity.
    + intros k x Hk. rewrite !setdefault_lookup.
      repeat case_decide; subst; rewrite ?setdefault_lookup;
        repeat case_decide; try done; by rewrite Hk.
    + rewrite !setdefault_lookup. repeat case_decide; try done.
    + rewrite !setdefault_lookup. repeat case_decide; try done.
    + rewrite !setdefault_lookup. repeat case_decide; try done.
    + rewrite !setdefault_lookup. repeat case_decide; try done.
    + rewrite !setdefault_lookup. repeat case_decide; try done.
      destruct (d !! "movies") as [[]|]; done.
Qed.
End listings.

Section listings_runs.
Import flask examples library.

Lemma index_lists_watchlist_witness :
  pages.index shelf = (Ret (pages.index_html [inception]), shelf).
Proof.
  edestruct (index_lists_watchlist shelf (VStr "ann@example.org") old_ann)
    as (ms & Hrun & Hrel & _).
  - reflexivity.
  - done.
  - reflexivity.
  - vm_compute. reflexivity.
  - reflexivity.
  - repeat constructor. exists inception. vm_compute. reflexivity.
  - rewrite Hrun. vm_compute in Hrun. injection Hrun as <-. reflexivity.
Defined.

Lemma search_blank_asks_nothing_witness :
  pages.search online (Some "   ") 1 shelf = (Ret (pages.search_html "" None), shelf)
  ∧ length (net_log (snd (pages.search online (Some " heat ") 1 shelf))) = 1%nat.
Proof.
  assert (Hl : logged shelf) by (vm_compute; done).
  assert (Hk : "key" ≠ "") by done.
  split.
  - apply (proj1 (search_blank_asks_nothing online (Some "   ") 1 shelf Hl)).
    reflexivity.
  - rewrite (proj2 (search_blank_asks_nothing online (Some " heat ") 1 shelf Hl) "key").
    + reflexivity.
    + vm_compute. done.
    + reflexivity.
    + done.
Defined.

Lemma inject_user_data_defaults_witness :
  app.inject_user_data fresh = (Ret (None, 0), fresh)
  ∧ ∃ d', app.inject_user_data shelf = (Ret (Some d', 2), shelf)
          ∧ d' !! "bio" = Some (VStr "").
Proof.
  split.
  - apply (proj1 (inject_user_data_defaults fresh)). reflexivity.
  - edestruct (proj2 (inject_user_data_defaults shelf) (VStr "ann@example.org") old_ann)
      as (d' & n & Hrun & _ & _ & _ & Hbio & _ & Hn); [reflexivity..|].
    exists d'. subst n. split; [exact Hrun|exact Hbio].
Defined.
End listings_runs.

(** ** How much a page asks of the catalog, and what it leaves alone *)

Section footprint.
Import tmdb flask.
Context (w : world).

Lemma sends_any (P : request → Prop) (n : nat) {A} (m : M A) :
  sends P n m → sends (λ _, True) n m.
Proof.
  intros Hm st. destruct (Hm st) as (rs & Hl & _ & E).
  exists rs. split_and!; [done| |done]. by apply Forall_forall.
Qed.

Lemma sends_for_each (P : request → Prop) {A B} (f : A → M B) (l : list A) :
  (∀ x, sends P 1 (f x)) → sends P (length l) (for_each f l).
Proof.
  intros Hf. induction l as [|x r IH]; cbn [for_each length].
  - apply sends_ret.
  - apply (sends_bind P 1 (length r)); [apply Hf|]. intros y.
    replace (length r) with (length r + 0)%nat by lia.
    apply (sends_bind P (length r) 0); [apply IH|]. intros ys. apply sends_ret.
Qed.

Lemma sends_get_featured (limit : nat) :
  sends (λ _, True) 1 (get_featured_indian_movies w limit).
Proof.
  intros st. unfold get_featured_indian_movies.
  destruct (get_api_key_cases w st) as [(k & Hk & Hne & Hrun)|Hrun].
  - rewrite (bind_ret_step _ _ _ _ _ Hrun).
    unfold try_except, bind, requests_get, lift, ret.
    exists [discover_request k]. split_and!; [done|by repeat constructor|].
    fold (discover_request k).
    destruct (network w (net_log st) (discover_request k)) as [code body| |];
      cbn; try done.
    by destruct (obind _ _).
  - rewrite (bind_raise_step _ _ _ _ _ Hrun). exists []. cbn.
    rewrite app_nil_r. split_and!; [lia|done|by destruct st].
Qed.

(** What the featured call returns iterates over at most [limit] items. *)
Lemma featured_items_bound (limit : nat) (st st1 : state) (data : value)
    (items : list value) :
  get_featured_indian_movies w limit st = (Ret data, st1) →
  iterate data = Ret items → (length items ≤ limit)%nat.
Proof.
  unfold get_featured_indian_movies.
  destruct (get_api_key_cases w st) as [(k & Hk & Hne & Hrun)|Hrun].
  2:{ by rewrite (bind_raise_step _ _ _ _ _ Hrun). }
  rewrite (bind_ret_step _ _ _ _ _ Hrun).
  unfold try_except, bind, requests_get, lift, ret.
  destruct (network w (net_log st) _) as [code body| |]; cbn.
  - destruct (json (Response code body)) as [r|e|]; cbn.
    + destruct (dict_get r "results" (VList [])) as [ms|e|]; cbn.
      * destruct (slice_to limit ms) as [top|e|] eqn:Hs; cbn.
        -- intros [= <- _] Hi. by eapply slice_iterate_length.
        -- intros [= <- _] [= <-]. cbn. lia.
        -- done.
      * intros [= <- _] [= <-]. cbn. lia.
      * done.
    + intros [= <- _] [= <-]. cbn. lia.
    + done.
  - intros [= <- _] [= <-]. cbn. lia.
  - done.
Qed.

Lemma sends_home_item (movie : value) : sends (λ _, True) 1 (routes.home_item w movie).
Proof.
  unfold routes.home_item.
  repeat (apply (sends_bind _ 0 1); [apply sends_lift|intros ?]).
  apply (sends_bind _ 1 0); [apply (sends_any timed), sends_get_director|].
  intros director. apply sends_ret.
Qed.

(** X20. Whatever the catalog answers, the home page sends it at most
    thirteen requests, the featured list and one director lookup for each
    of at most twelve entries, and writes to neither the collections nor
    the session. *)
Theorem home_sends_at_most_thirteen :
  sends (λ _, True) 13 (routes.home w).
Proof.
  unfold routes.home.
  apply (sends_bind_dep _ 1 12); [apply sends_get_featured|].
  intros st data st1 Hdata.
  apply (sends_bind_dep _ 0 12); [apply sends_lift|].
  intros st2 items st3 Hitems. apply lift_ret_inv in Hitems as [Hitems _].
  apply (sends_weaken _ (length items + 0));
    [pose proof (featured_items_bound 12 st st1 data items Hdata Hitems); lia|].
  apply (sends_bind _ (length items) 0);
    [apply sends_for_each, sends_home_item|].
  intros movies. apply sends_ret.
Qed.
End footprint.

(** ** Views that only read *)

Section reading.
Import tmdb flask.
Context (w : world).

Lemma keeps_store_bind {A B} (m : M A) (k : A → M B) :
  keeps_store m → (∀ a, keeps_store (k a)) → keeps_store (bind m k).
Proof.
  intros Hm Hk st. unfold bind. destruct (Hm st) as [Hu Hv].
  destruct (m st) as [[a|e|] st1]; cbn in *; [|done..].
  destruct (Hk a st1) as [Hu' Hv']. split; congruence.
Qed.

Lemma keeps_store_same {A} (m : M A) :
  (∀ st, db_user (snd (m st)) = db_user st ∧ db_movie (snd (m st)) = db_movie st) →
  keeps_store m.
Proof. done. Qed.

Lemma keeps_store_sends (P : request → Prop) (n : nat) {A} (m : M A) :
  sends P n m → keeps_store m.
Proof. intros Hm st. destruct (Hm st) as (rs & _ & _ & ->). done. Qed.

Lemma keeps_store_ret {A} (a : A) : keeps_store (ret a).
Proof. done. Qed.

Lemma keeps_store_raise {A} (e : exn) : keeps_store (@raise A e).
Proof. done. Qed.

Lemma keeps_store_lift {A} (o : outcome A) : keeps_store (lift o).
Proof. done. Qed.

Lemma keeps_store_session_get (k : string) : keeps_store (session_get k).
Proof. done. Qed.

Lemma keeps_store_session_set (k : string) (v : value) : keeps_store (session_set k v).
Proof. done. Qed.

Lemma keeps_store_session_clear : keeps_store session_clear.
Proof. done. Qed.

Lemma keeps_store_session_item (k : string) : keeps_store (session_item k).
Proof. intros st. unfold session_item. by destruct (session st !! k). Qed.

Lemma keeps_store_flash (message category : string) :
  keeps_store (flash message category).
Proof.
  intros st. unfold flash. by destruct (session st !! "_flashes") as [[]|].
Qed.

Lemma keeps_store_url_for (endpoint : string) (args : list (string * value)) :
  keeps_store (url_for endpoint args).
Proof.
  intros st. unfold url_for. destruct (rule_of _ _); [|done].
  by destruct (forallb _ _).
Qed.

Lemma keeps_store_user_find_one (field : string) (v : value) :
  keeps_store (user_find_one field v).
Proof. done. Qed.

Lemma keeps_store_movie_find_one (field : string) (v : value) :
  keeps_store (movie_find_one field v).
Proof. done. Qed.

Lemma keeps_store_for_each {A B} (f : A → M B) (l : list A) :
  (∀ x, keeps_store (f x)) → keeps_store (for_each f l).
Proof.
  intros Hf. induction l as [|x r IH]; cbn [for_each]; [done|].
  apply keeps_store_bind; [apply Hf|]. intros y.
  apply keeps_store_bind; [apply IH|]. intros ys. done.
Qed.

Lemma keeps_store_full_info (movie_id : value) :
  keeps_store (get_full_movie_info w movie_id).
Proof.
  unfold get_full_movie_info.
  apply keeps_store_bind;
    [apply (keeps_store_sends timed 1), sends_get_movie_details|].
  intros [m|]; [|done].
  apply keeps_store_bind;
    [apply (keeps_store_sends timed 1), sends_get_movie_credits|]. intros cast.
  apply keeps_store_bind;
    [apply (keeps_store_sends timed 1), sends_get_movie_videos|]. intros videos.
  apply keeps_store_bind; [done|]. intros trailer. done.
Qed.

Lemma keeps_store_home : keeps_store (routes.home w).
Proof.
  unfold routes.home.
  apply keeps_store_bind;
    [apply (keeps_store_sends (λ _, True) 1), sends_get_featured|]. intros data.
  apply keeps_store_bind; [done|]. intros items.
  apply keeps_store_bind; [|done].
  apply keeps_store_for_each. intros movie.
  apply (keeps_store_sends (λ _, True) 1), sends_home_item.
Qed.

Ltac keeps_step :=
  first
    [ apply keeps_store_full_info
    | apply (keeps_store_sends timed 1), sends_get_director
    | apply (keeps_store_sends timed 1), sends_search_movies
    | apply keeps_store_home
    | apply keeps_store_ret | apply keeps_store_raise | apply keeps_store_lift
    | apply keeps_store_session_get | apply keeps_store_session_set
    | apply keeps_store_session_clear | apply keeps_store_session_item
    | apply keeps_store_flash | apply keeps_store_url_for
    | apply keeps_store_user_find_one | apply keeps_store_movie_find_one
    | match goal with
      | |- keeps_store (if ?b then _ else _) => destruct b
      | |- keeps_store (match ?x with _ => _ end) => destruct x
      | |- keeps_store (fun st => (_, st)) => done
      | |- keeps_store (bind _ _) => apply keeps_store_bind; [|intros ?]
      end ].

(** X21. The pages that show things write nothing: the home page, the
    details page, the catalog page, the watchlist page, the search page
    and the profile page when it is only looked at leave both
    collections as they were, and so do login, logout, the theme toggle
    and the context processor, whatever their outcome. *)
Theorem reading_views_keep_store (_id : string) (movie_id page_no : Z) (valid : bool)
    (email password : string) (current_page : value) (q name bio avatar : option string) :
  keeps_store (routes.home w)
  ∧ keeps_store (routes.movie _id)
  ∧ keeps_store (routes.tmdb_movie w movie_id)
  ∧ keeps_store pages.index
  ∧ keeps_store (pages.search w q page_no)
  ∧ keeps_store (pages.profile false name bio avatar)
  ∧ keeps_store (routes.login w valid email password)
  ∧ keeps_store routes.logout
  ∧ keeps_store (routes.toggle_theme current_page)
  ∧ keeps_store app.inject_user_data.
Proof.
  unfold routes.movie, routes.tmdb_movie, pages.index, pages.search, pages.profile,
    routes.login, routes.logout, routes.toggle_theme, app.inject_user_data,
    routes.login_required, pages.login_required.
  split_and!; repeat keeps_step.
Qed.
End reading.

(** ** The profile page *)

Section profiles.
Import flask.

Lemma user_keys_insert (d : doc) (k : string) (v : value) :
  d !! k = None → k ∈ models.User.fields →
  bool_decide (map_Forall (λ k _, k ∈ models.User.fields) (<[k := v]> d))
  = bool_decide (map_Forall (λ k _, k ∈ models.User.fields) d).
Proof.
  intros Hk Hin. apply bool_decide_ext. rewrite map_Forall_insert by done. tauto.
Qed.

(** Filling in a missing optional field with the empty string does not
    change the record that is built. *)
Lemma user_new_setdefault (k : string) (d : doc) :
  k ∈ ["name"; "bio"; "avatar_url"] →
  models.User.new (Some (pages.setdefault k (VStr "") d)) = models.User.new (Some d).
Proof.
  intros Hk. unfold pages.setdefault. destruct (d !! k) as [x|] eqn:E; [done|].
  unfold models.User.new.
  repeat (apply elem_of_cons in Hk as [->|Hk];
          [rewrite user_keys_insert
             by (try done; unfold models.User.fields; repeat constructor);
           rewrite ?lookup_insert_eq, !lookup_insert_ne by done; by rewrite ?E|]).
  by apply elem_of_nil in Hk.
Qed.

Section one_user.
Context (st : state) (e : value) (d : doc) (u : models.User.t) (l : list value).
Hypothesis bound : session st !! "email" = Some e.
Hypothesis bound_some : e ≠ VNone.
Hypothesis found : db.find_one (db_user st) "email" e = Some d.
Hypothesis well_formed : models.User.new (Some d) = Ret u.
Hypothesis watchlist : models.User.movies u = VList l.

Lemma profile_loaded :
  models.User.new
    (Some (pages.setdefault "avatar_url" (VStr "")
             (pages.setdefault "bio" (VStr "")
                (pages.setdefault "name" (VStr "") d)))) = Ret u.
Proof.
  rewrite !user_new_setdefault by set_solver. done.
Qed.

Lemma movie_count_length :
  (if truthy (models.User.movies u) then pages.len (models.User.movies u) else Ret 0)
  = Ret (Z.of_nat (length l)).
Proof. rewrite watchlist. by destruct l. Qed.

(** X22. Looking at the profile shows the user as stored, with the size
    of the watchlist, and changes nothing.  Posting the form stores the
    three fields with the white space around them stripped, a missing
    one as the empty string, on the record with the identity of that
    user, and leaves every other field of it as it was, the email, the
    password hash and the watchlist included. *)
Theorem profile_updates_three_fields (name bio avatar_url : option string) :
  db.find_one (db_user st) "_id" (models.User._id u) = Some d →
  flashes_ok (session st) →
  let n := VStr (pystr.strip (default "" name)) in
  let b := VStr (pystr.strip (default "" bio)) in
  let a := VStr (pystr.strip (default "" avatar_url)) in
  let st' := snd (pages.profile true name bio avatar_url st) in
  pages.profile false name bio avatar_url st
  = (Ret (pages.profile_html u (Z.of_nat (length l))), st)
  ∧ fst (pages.profile true name bio avatar_url st)
    = Ret (pages.profile_html
             (models.User.Make (models.User._id u) (models.User.email u)
                (models.User.password u) n b a (models.User.movies u))
             (Z.of_nat (length l)))
  ∧ (∃ d', db.find_one (db_user st') "_id" (models.User._id u) = Some d'
           ∧ d' !! "name" = Some n ∧ d' !! "bio" = Some b
           ∧ d' !! "avatar_url" = Some a
           ∧ ∀ k, k ∉ ["name"; "bio"; "avatar_url"] → d' !! k = d !! k)
  ∧ length (db_user st') = length (db_user st)
  ∧ db_movie st' = db_movie st.
Proof.
  intros Hid Hfl n b a st'. subst st'.
  assert (Hlog : logged st) by (unfold logged; by rewrite bound).
  set (fields := <["name" := n]> (<["bio" := b]> (<["avatar_url" := a]> (∅ : doc)))).
  destruct (update_first_found "_id" (models.User._id u) (pages.set_fields fields)
              (db_user st) d (fields ∪ d) Hid eq_refl) as (c' & Hup & Hfind & Hlen).
  { rewrite lookup_union_r by done. by destruct (find_one_matches _ _ _ _ Hid). }
  assert (Hget : pages.profile false name bio avatar_url st
                 = (Ret (pages.profile_html u (Z.of_nat (length l))), st)).
  { unfold pages.profile. rewrite pages_login_required_pass by done.
    unfold bind at 1. unfold session_item. rewrite bound.
    unfold bind at 1. unfold user_find_one. rewrite found.
    unfold bind at 1. unfold lift at 1. rewrite profile_loaded.
    unfold bind at 1. unfold lift at 1. by rewrite movie_count_length. }
  assert (Hpost : pages.profile true name bio avatar_url st
                  = (Ret (pages.profile_html
                            (models.User.Make (models.User._id u) (models.User.email u)
                               (models.User.password u) n b a (models.User.movies u))
                            (Z.of_nat (length l))),
                     with_session (with_db_user st c')
                       (flashed (session st) "success" "Profile updated successfully!"))).
  { unfold pages.profile. rewrite pages_login_required_pass by done.
    unfold bind at 1. unfold session_item. rewrite bound.
    unfold bind at 1. unfold user_find_one. rewrite found.
    unfold bind at 1. unfold lift at 1. rewrite profile_loaded.
    unfold bind at 1. unfold lift at 1. rewrite movie_count_length.
    unfold bind at 1. unfold user_update_one. fold n b a. fold fields. rewrite Hup.
    unfold bind at 1. by rewrite flash_run. }
  rewrite Hpost. cbn [fst snd]. split_and!; [done|done| |done|done].
  exists (fields ∪ d). split_and!; [done|..].
  - apply lookup_union_Some_l. unfold fields. by rewrite lookup_insert_eq.
  - apply lookup_union_Some_l. unfold fields.
    rewrite lookup_insert_ne by done. by rewrite lookup_insert_eq.
  - apply lookup_union_Some_l. unfold fields.
    rewrite !lookup_insert_ne by done. by rewrite lookup_insert_eq.
  - intros k Hk. apply lookup_union_r. unfold fields.
    rewrite !lookup_insert_ne by set_solver. done.
Qed.
End one_user.
End profiles.

Section profiles_runs.
Import flask examples library.

Lemma profile_updates_three_fields_witness :
  pages.profile false None None None shelf
  = (Ret (pages.profile_html
            (models.User.Make (VStr "u1") (VStr "ann@example.org")
               (VStr (toy_hash 7 "s3cret")) (VStr "") (VStr "") (VStr "")
               (VList [VStr "m1"; VStr "gone"])) 2), shelf).
Proof.
  eapply (proj1 (profile_updates_three_fields shelf (VStr "ann@example.org") old_ann
                   _ [VStr "m1"; VStr "gone"] _ _ _ _ _ None None None _ _)).
  Unshelve.
  - reflexivity.
  - done.
  - reflexivity.
  - vm_compute. reflexivity.
  - reflexivity.
  - reflexivity.
  - exact I.
Defined.
End profiles_runs.

(** ** The two import views, to their end *)

Section imports.
Import tmdb flask.
Context (w : world).


Section one_import_run.
Context (movie_id : Z) (st st1 st2 : state) (info : movie_info) (d : value) (y : Z)
        (uid : value) (ud : doc) (l : list value).
Hypothesis is_logged : logged st.
Hypothesis got_info : get_full_movie_info w (VInt movie_id) st = (Ret (Some info), st1).
Hypothesis got_director : get_director w (VInt movie_id) st1 = (Ret d, st2).
Hypothesis got_year : TMDBMovie.year (movie info) = Ret y.
Hypothesis fresh_id :
  db.find_one (db_movie st) "_id" (VStr (uuid4_hex w (entropy st))) = None.
Hypothesis names_user : session st !! "user_id" = Some uid.
Hypothesis has_user : db.find_one (db_user st) "_id" uid = Some ud.
Hypothesis has_list : ud !! "movies" = Some (VList l).
Hypothesis flashes : flashes_ok (session st).



End one_import_run.

(** X25. When the catalog has no details for the movie, the three
    catalog views give up after that one request: each queues its
    message and redirects, to the search page or to the home page, and
    writes nothing to the collections. *)
Theorem catalog_views_absent (movie_id : Z) (st st1 : state) :
  logged st → flashes_ok (session st) →
  get_movie_details w (VInt movie_id) st = (Ret None, st1) →
  routes.tmdb_movie w movie_id st
  = (Ret (redirect (Url "search" [])),
     with_session st1 (flashed (session st) "danger" "Movie not found"))
  ∧ routes.add_from_tmdb w movie_id st
    = (Ret (redirect (Url "search" [])),
       with_session st1 (flashed (session st) "danger" "Movie not found"))
  ∧ routes.add_featured w movie_id st
    = (Ret (redirect (Url "home" [])),
       with_session st1 (flashed (session st) "danger" "Could not load movie details."))
  ∧ db_user st1 = db_user st ∧ db_movie st1 = db_movie st
  ∧ length (net_log st1) = S (length (net_log st)).
Proof.
  intros Hlog Hfl Hd.
  assert (Hinfo : get_full_movie_info w (VInt movie_id) st = (Ret None, st1)).
  { unfold get_full_movie_info. by rewrite (bind_ret_step _ _ _ _ _ Hd). }
  destruct (get_movie_details_none w _ _ _ Hd) as (k & _ & _ & E).
  assert (Hs : session st1 = session st) by (by rewrite E).
  assert (Hfl1 : flashes_ok (session st1)) by (by rewrite Hs).
  unfold routes.tmdb_movie, routes.add_from_tmdb, routes.add_featured.
  rewrite !login_required_pass by done.
  rewrite !(bind_ret_step _ _ _ _ _ Hinfo).
  unfold bind. rewrite !flash_run by done. rewrite Hs.
  split_and!; try done; rewrite E; cbn; try done.
  rewrite length_app. cbn. lia.
Qed.
End imports.

Section imports_runs.
Import tmdb flask examples library.



Lemma catalog_views_absent_witness :
  fst (routes.tmdb_movie offline 27205 shelf) = Ret (redirect (Url "search" [])).
Proof.
  assert (Hl : logged shelf) by (vm_compute; done).
  destruct (get_movie_details offline (VInt 27205) shelf) as [o st1] eqn:Hd.
  assert (Ho : o = Ret None) by (vm_compute in Hd; by injection Hd as <- _).
  subst o.
  by rewrite (proj1 (catalog_views_absent offline 27205 shelf st1 Hl I Hd)).
Defined.
End imports_runs.
